(** * pytest-pinterest-demo: element resolution, wait policy and HTTP client

    A shallow embedding of the parts of the test harness that carry logic:

    - [config/settings.py]   : [TimeoutConfig] and its randomized defaults;
    - [core/base_page.py]    : [click], [fill], [get_text], [is_visible_slow],
                               [take_screenshot];
    - [pages/home_page.py]   : [_get_active_search_box];
    - [utils/pinterest_api.py] : [APIResponse], [_make_request],
                               [_process_response], [download_file].

    Python code runs in a monad that threads the observable history of the
    run (log records, browser calls, HTTP attempts, file writes) and may
    raise.  The browser, the network and the disk are oracles: records of
    functions that say what each primitive call answers.  The third-party
    libraries the client is built on ([requests], [urllib3], [json]) are
    embedded from their own sources, as far as the client exercises them. *)

From Stdlib Require Import ZArith List String Ascii Bool Lia QArith DecimalString.
Import ListNotations.

Set Warnings "-register-all".

Local Open Scope string_scope.
Local Open Scope list_scope.
Local Open Scope Z_scope.

(** String concatenation, as [+] and f-strings do it. *)
Infix "^^" := String.append (at level 60, right associativity).

(* ================================================================== *)
(** * Python values, exceptions and the effect monad *)
(* ================================================================== *)

Module Py.

(** Objects as [json.loads] builds them and as payloads carry them.
    [VNone] is Python's [None]; a float keeps its literal text. *)
Inductive value : Type :=
| VNone
| VBool (b : bool)
| VInt (z : Z)
| VFloat (lit : string)
| VStr (s : string)
| VList (items : list value)
| VDict (items : list (string * value)).

(** Truth value testing, as [if x:] does it. *)
Definition truthy (v : value) : bool :=
  match v with
  | VNone => false
  | VBool b => b
  | VInt z => negb (z =? 0)
  | VFloat _ => true
  | VStr s => negb (String.eqb s EmptyString)
  | VList l => match l with [] => false | _ => true end
  | VDict l => match l with [] => false | _ => true end
  end.

Definition str_truthy (s : string) : bool := negb (String.eqb s EmptyString).

(** [s.startswith(p)], [needle in hay], and whether a text holds a
    decimal digit. *)
Fixpoint prefix_of (p s : string) : bool :=
  match p, s with
  | EmptyString, _ => true
  | String a p', String b s' => Ascii.eqb a b && prefix_of p' s'
  | String _ _, EmptyString => false
  end.

Fixpoint mentions (needle hay : string) : bool :=
  prefix_of needle hay ||
  match hay with
  | EmptyString => false
  | String _ r => mentions needle r
  end.

Definition is_digit (c : ascii) : bool :=
  let n := nat_of_ascii c in ((48 <=? n) && (n <=? 57))%nat.


(** Exception classes that the harness meets: builtins, the classes of
    [requests.exceptions], and Playwright's two. *)
Inductive exc_class : Type :=
| Exception_ | ValueError | TypeError | OSError | AttributeError
| RuntimeError | RecursionError
| JSONDecodeError_json
| Urllib3HTTPError
| RequestException | InvalidJSONError | JSONDecodeError | HTTPError
| ConnectionError | ProxyError | SSLError | Timeout | ConnectTimeout
| ReadTimeout | URLRequired | TooManyRedirects | MissingSchema
| InvalidSchema | InvalidURL | InvalidHeader | InvalidProxyURL
| ChunkedEncodingError | ContentDecodingError | StreamConsumedError
| RetryError | UnrewindableBodyError
| PlaywrightError | PlaywrightTimeoutError.

Definition exc_class_eqb (a b : exc_class) : bool :=
  match a, b with
  | Exception_, Exception_ | ValueError, ValueError | TypeError, TypeError
  | OSError, OSError | AttributeError, AttributeError
  | RuntimeError, RuntimeError | RecursionError, RecursionError
  | JSONDecodeError_json, JSONDecodeError_json
  | Urllib3HTTPError, Urllib3HTTPError
  | RequestException, RequestException
  | InvalidJSONError, InvalidJSONError | JSONDecodeError, JSONDecodeError
  | HTTPError, HTTPError | ConnectionError, ConnectionError
  | ProxyError, ProxyError | SSLError, SSLError | Timeout, Timeout
  | ConnectTimeout, ConnectTimeout | ReadTimeout, ReadTimeout
  | URLRequired, URLRequired | TooManyRedirects, TooManyRedirects
  | MissingSchema, MissingSchema | InvalidSchema, InvalidSchema
  | InvalidURL, InvalidURL | InvalidHeader, InvalidHeader
  | InvalidProxyURL, InvalidProxyURL
  | ChunkedEncodingError, ChunkedEncodingError
  | ContentDecodingError, ContentDecodingError
  | StreamConsumedError, StreamConsumedError | RetryError, RetryError
  | UnrewindableBodyError, UnrewindableBodyError
  | PlaywrightError, PlaywrightError
  | PlaywrightTimeoutError, PlaywrightTimeoutError => true
  | _, _ => false
  end.

(** The base classes named in each [class] statement. *)
Definition bases (c : exc_class) : list exc_class :=
  match c with
  | Exception_ => []
  | ValueError | TypeError | OSError | AttributeError => [Exception_]
  | RuntimeError => [Exception_]
  | RecursionError => [RuntimeError]
  | JSONDecodeError_json => [ValueError]
  | Urllib3HTTPError => [Exception_]
  | RequestException => [OSError]
  | InvalidJSONError => [RequestException]
  | JSONDecodeError => [InvalidJSONError; JSONDecodeError_json]
  | HTTPError => [RequestException]
  | ConnectionError => [RequestException]
  | ProxyError => [ConnectionError]
  | SSLError => [ConnectionError]
  | Timeout => [RequestException]
  | ConnectTimeout => [ConnectionError; Timeout]
  | ReadTimeout => [Timeout]
  | URLRequired => [RequestException]
  | TooManyRedirects => [RequestException]
  | MissingSchema | InvalidSchema | InvalidURL | InvalidHeader =>
      [RequestException; ValueError]
  | InvalidProxyURL => [InvalidURL]
  | ChunkedEncodingError => [RequestException]
  | ContentDecodingError => [RequestException; Urllib3HTTPError]
  | StreamConsumedError => [RequestException; TypeError]
  | RetryError => [RequestException]
  | UnrewindableBodyError => [RequestException]
  | PlaywrightError => [Exception_]
  | PlaywrightTimeoutError => [PlaywrightError]
  end.

(** [issubclass c d], searching the bases up to the depth of the
    hierarchy (no chain above is longer than six classes). *)
Fixpoint issubclass_upto (depth : nat) (c d : exc_class) : bool :=
  exc_class_eqb c d ||
  match depth with
  | O => false
  | S k => existsb (fun b => issubclass_upto k b d) (bases c)
  end.

Definition issubclass : exc_class -> exc_class -> bool := issubclass_upto 6.

(** A raised exception: its class and the text [str(e)] gives. *)
Record exc : Type := mkExc { exc_cls : exc_class; exc_str : string }.

Definition isinstance (e : exc) (c : exc_class) : bool :=
  issubclass (exc_cls e) c.

(** Outcome of running a piece of Python. *)
Inductive result (A : Type) : Type :=
| Ret (a : A)
| Raise (e : exc).
Arguments Ret {A} a.
Arguments Raise {A} e.

End Py.
Export Py.

(* ================================================================== *)
(** * The history of a run *)
(* ================================================================== *)

Module Run.

Inductive level : Type := DEBUG | INFO | WARNING | ERROR.

(** A piece of an f-string: text (literal, or a [str] put in), or an
    object that [str()] renders. *)
Inductive fragment : Type :=
| T (s : string)
| V (v : Py.value).

(** How the pages find an element: [page.locator(selector)],
    [page.get_by_placeholder(re.compile(pattern, flags))],
    [page.get_by_label(text)]. *)
Inductive Locator : Type :=
| ByCss (selector : string)
| ByPlaceholder (pattern : string) (ignore_case : bool)
| ByLabel (text : string).

Definition kwargs : Type := list (string * Py.value).

(** What a run leaves behind, in the order it happened. *)
Inductive event : Type :=
| Log (lv : level) (msg : list fragment)
| WaitFor (l : Locator) (timeout : Z)
| Click (l : Locator) (kw : kwargs)
| Fill (l : Locator) (text : string) (kw : kwargs)
| TextContent (l : Locator)
| Screenshot (path : string)
| HttpAttempt (method url : string)
| FileOpen (path : string)
| FileWrite (path chunk : string).

Definition trace : Type := list event.

(** Python statements: they extend the history and return or raise. *)
Definition M (A : Type) : Type := trace -> result A * trace.

Definition ret {A} (a : A) : M A := fun t => (Ret a, t).

Definition raise {A} (e : exc) : M A := fun t => (Raise e, t).

Definition bind {A B} (m : M A) (k : A -> M B) : M B :=
  fun t =>
    match m t with
    | (Ret a, t') => k a t'
    | (Raise e, t') => (Raise e, t')
    end.

Definition emit (ev : event) : M unit := fun t => (Ret tt, t ++ [ev]).

(** The history so far, for oracles that depend on it (the clock, the
    server). *)
Definition history : M trace := fun t => (Ret t, t).

(** [try: body  except ...: handler].  [handler e] is [None] when no
    [except] clause matches [e], which then propagates. *)
Definition try_except {A} (body : M A) (handler : exc -> option (M A)) : M A :=
  fun t =>
    match body t with
    | (Ret a, t') => (Ret a, t')
    | (Raise e, t') =>
        match handler e with
        | Some h => h t'
        | None => (Raise e, t')
        end
    end.

(** [except Exception as e: h e]. *)
Definition except_Exception {A} (h : exc -> M A) : exc -> option (M A) :=
  fun e => if isinstance e Exception_ then Some (h e) else None.

(** An oracle's answer turned into a statement: [None] is a normal
    return, [Some e] raises [e]. *)
Definition or_raise (o : option exc) : M unit :=
  match o with
  | None => ret tt
  | Some e => raise e
  end.

Definition lift {A} (r : result A) : M A := fun t => (r, t).

Declare Scope py_scope.
Delimit Scope py_scope with py.
Notation "x <- c1 ;; c2" := (bind c1 (fun x => c2))
  (at level 61, c1 at next level, right associativity) : py_scope.
Notation "c1 ;; c2" := (bind c1 (fun _ => c2))
  (at level 61, right associativity) : py_scope.

(** [core/logger.py]: one shared logger; a call appends one record. *)
Definition logger (lv : level) (msg : list fragment) : M unit := emit (Log lv msg).

Definition str_of_int (z : Z) : string := NilZero.string_of_int (Z.to_int z).

(** Counting in a history. *)
Definition is_screenshot (ev : event) : bool :=
  match ev with Screenshot _ => true | _ => false end.

Definition is_attempt (ev : event) : bool :=
  match ev with HttpAttempt _ _ => true | _ => false end.

Definition is_error_log (ev : event) : bool :=
  match ev with Log ERROR _ => true | _ => false end.

Definition screenshots (t : trace) : list event := filter is_screenshot t.
Definition attempts (t : trace) : nat := List.length (filter is_attempt t).

(** The locators waited on, in order. *)
Fixpoint waited (t : trace) : list Locator :=
  match t with
  | [] => []
  | WaitFor l _ :: t' => l :: waited t'
  | _ :: t' => waited t'
  end.

End Run.
Export Run.
Local Open Scope py_scope.

(* ================================================================== *)
(** * config/settings.py *)
(* ================================================================== *)

Module Settings.

(** [TimeoutConfig]: timeouts in milliseconds. *)
Record TimeoutConfig : Type := mkTimeoutConfig {
  DEFAULT_TIMEOUT : Z;
  TYPING_TIMEOUT : Z;
  SHORT13_TIMEOUT : Z;
  SHORT24_TIMEOUT : Z;
  LONG_TIMEOUT : Z;
  PAGE_LOAD_TIMEOUT : Z;
  ELEMENT_TIMEOUT : Z
}.

Inductive field : Type :=
| F_DEFAULT | F_TYPING | F_SHORT13 | F_SHORT24 | F_LONG | F_PAGE_LOAD
| F_ELEMENT.

Definition all_fields : list field :=
  [F_DEFAULT; F_TYPING; F_SHORT13; F_SHORT24; F_LONG; F_PAGE_LOAD; F_ELEMENT].

Definition getattr (c : TimeoutConfig) (f : field) : Z :=
  match f with
  | F_DEFAULT => DEFAULT_TIMEOUT c
  | F_TYPING => TYPING_TIMEOUT c
  | F_SHORT13 => SHORT13_TIMEOUT c
  | F_SHORT24 => SHORT24_TIMEOUT c
  | F_LONG => LONG_TIMEOUT c
  | F_PAGE_LOAD => PAGE_LOAD_TIMEOUT c
  | F_ELEMENT => ELEMENT_TIMEOUT c
  end.

(** Keyword arguments of the generated [__init__]: a field left out takes
    the default stored on the class. *)
Record init_args : Type := mkInitArgs {
  a_DEFAULT : option Z; a_TYPING : option Z; a_SHORT13 : option Z;
  a_SHORT24 : option Z; a_LONG : option Z; a_PAGE_LOAD : option Z;
  a_ELEMENT : option Z
}.

Definition no_args : init_args := mkInitArgs None None None None None None None.

Definition or_default (a : option Z) (d : Z) : Z :=
  match a with Some v => v | None => d end.

Definition TimeoutConfig_init (cls : TimeoutConfig) (a : init_args) : TimeoutConfig :=
  {| DEFAULT_TIMEOUT := or_default (a_DEFAULT a) (DEFAULT_TIMEOUT cls);
     TYPING_TIMEOUT := or_default (a_TYPING a) (TYPING_TIMEOUT cls);
     SHORT13_TIMEOUT := or_default (a_SHORT13 a) (SHORT13_TIMEOUT cls);
     SHORT24_TIMEOUT := or_default (a_SHORT24 a) (SHORT24_TIMEOUT cls);
     LONG_TIMEOUT := or_default (a_LONG a) (LONG_TIMEOUT cls);
     PAGE_LOAD_TIMEOUT := or_default (a_PAGE_LOAD a) (PAGE_LOAD_TIMEOUT cls);
     ELEMENT_TIMEOUT := or_default (a_ELEMENT a) (ELEMENT_TIMEOUT cls) |}.

Section Process.

(** The state of Python's [random] generator and its next raw output. *)
Variable rng : Type.
Variable next : rng -> Z * rng.

(** [random.randint(a, b)] for [a <= b]: [a + randbelow(b - a + 1)]. *)
Definition randint (a b : Z) (g : rng) : Z * rng :=
  let (r, g') := next g in (a + r mod (b - a + 1), g').

(** The body of [class TimeoutConfig], run when the module is imported:
    the three [random.randint] calls are the default values of the
    fields, evaluated there. *)
Definition TimeoutConfig_class (g : rng) : TimeoutConfig * rng :=
  let (typing, g1) := randint 300 500 g in
  let (short13, g2) := randint 1000 3000 g1 in
  let (short24, g3) := randint 2000 4000 g2 in
  ({| DEFAULT_TIMEOUT := 30000;
      TYPING_TIMEOUT := typing;
      SHORT13_TIMEOUT := short13;
      SHORT24_TIMEOUT := short24;
      LONG_TIMEOUT := 60000;
      PAGE_LOAD_TIMEOUT := 45000;
      ELEMENT_TIMEOUT := 10000 |}, g3).

(** A Python process that has imported [config.settings]: the generator,
    the class with its stored defaults, the [settings] singleton's
    [timeouts], and every other [TimeoutConfig()] made since. *)
Record process : Type := mkProcess {
  p_rng : rng;
  p_class : TimeoutConfig;
  p_settings_timeouts : TimeoutConfig;
  p_instances : list TimeoutConfig
}.

(** First import: the class body runs, then [settings = Settings()],
    whose [__init__] does [self.timeouts = TimeoutConfig()]. *)
Definition import_settings (g : rng) : process :=
  let (cls, g') := TimeoutConfig_class g in
  {| p_rng := g';
     p_class := cls;
     p_settings_timeouts := TimeoutConfig_init cls no_args;
     p_instances := [] |}.

(** What the rest of the run can do that touches these objects. *)
Inductive op : Type :=
| OpImport                                   (* import config.settings, again *)
| OpNew                                      (* TimeoutConfig() *)
| OpSettings                                 (* Settings() *)
| OpSetAttr (i : nat) (f : field) (v : Z)    (* instance.f = v *)
| OpRandint (a b : Z).                       (* random.randint elsewhere *)

(** One step.  A module already in [sys.modules] is not run again; a
    frozen dataclass refuses assignment (FrozenInstanceError) and keeps
    its fields; a draw elsewhere moves the generator only. *)
Definition step (p : process) (o : op) : process :=
  match o with
  | OpImport => p
  | OpNew | OpSettings =>
      {| p_rng := p_rng p;
         p_class := p_class p;
         p_settings_timeouts := p_settings_timeouts p;
         p_instances := p_instances p ++ [TimeoutConfig_init (p_class p) no_args] |}
  | OpSetAttr _ _ _ => p
  | OpRandint a b =>
      {| p_rng := snd (randint a b (p_rng p));
         p_class := p_class p;
         p_settings_timeouts := p_settings_timeouts p;
         p_instances := p_instances p |}
  end.

Definition run_ops (ops : list op) (p : process) : process := fold_left step ops p.

(** Every [TimeoutConfig] alive in the process. *)
Definition live (p : process) : list TimeoutConfig :=
  p_settings_timeouts p :: p_instances p.

End Process.

Definition in_range (lo hi v : Z) : Prop := lo <= v <= hi.

End Settings.

(* ================================================================== *)
(** * core/base_page.py *)
(* ================================================================== *)

Module BasePage.

(** The Playwright page behind [self.page], as the answers it gives:
    - [wait_for_visible l ms]: [locator.wait_for(state="visible",
      timeout=ms)] returns ([None]) or raises;
    - [locator_click], [locator_fill], [locator_text_content],
      [locator_is_visible]: the locator's methods;
    - [page_screenshot path]: [page.screenshot(path=path, full_page=True)];
    - [now t]: [settings.get_current_timestamp()] read after history [t]. *)
Record Page : Type := mkPage {
  wait_for_visible : Locator -> Z -> option exc;
  locator_click : Locator -> kwargs -> option exc;
  locator_fill : Locator -> string -> kwargs -> option exc;
  locator_text_content : Locator -> result (option string);
  locator_is_visible : Locator -> bool;
  page_screenshot : string -> option exc;
  now : trace -> string
}.

(** [str.strip()] on the whitespace of ASCII. *)
Definition is_space (c : ascii) : bool :=
  let n := nat_of_ascii c in
  ((9 <=? n) && (n <=? 13) || (28 <=? n) && (n <=? 32))%nat.

Fixpoint lstrip (s : string) : string :=
  match s with
  | String c r => if is_space c then lstrip r else s
  | EmptyString => EmptyString
  end.

Fixpoint rstrip (s : string) : string :=
  match s with
  | String c r =>
      match rstrip r with
      | EmptyString => if is_space c then EmptyString else String c EmptyString
      | r' => String c r'
      end
  | EmptyString => EmptyString
  end.

Definition strip (s : string) : string := rstrip (lstrip s).

Definition take_screenshot (page : Page) (name : string) : M unit :=
  try_except
    (t <- history ;;
     let path := "screenshots/" ^^ (name ^^ now page t) ^^ ".png" in
     emit (Screenshot path) ;;
     or_raise (page_screenshot page path) ;;
     logger INFO [T "📸 Screenshot saved: "; T path])
    (except_Exception (fun e =>
       logger WARNING [T "⚠️ Could not take screenshot: "; T (exc_str e)])).

Definition click (page : Page) (locator : Locator) (description : string)
    (kw : kwargs) : M unit :=
  logger INFO [T "🖱️ Clicking on '"; T description; T "'"] ;;
  try_except
    (emit (Click locator kw) ;;
     or_raise (locator_click page locator kw))
    (except_Exception (fun e =>
       logger ERROR [T "❌ Failed to click '"; T description; T "': "; T (exc_str e)] ;;
       take_screenshot page ("fail_click_" ^^ description) ;;
       raise e)).


(** [x or d] on strings and on [None]. *)
Definition str_or (x : option string) (d : string) : string :=
  match x with
  | Some s => if str_truthy s then s else d
  | None => d
  end.

Definition get_text (page : Page) (locator : Locator) (description : option string)
    : M string :=
  emit (TextContent locator) ;;
  content <- lift (locator_text_content page locator) ;;
  let text := str_or content EmptyString in
  let desc := str_or description "element" in
  logger DEBUG [T "👀 Read text from '"; T desc; T "': '"; T (strip text); T "'"] ;;
  ret (strip text).

Definition is_visible (page : Page) (locator : Locator) : M bool :=
  ret (locator_is_visible page locator).

Definition is_visible_slow (page : Page) (locator : Locator) (timeout : Z) : M bool :=
  try_except
    (emit (WaitFor locator timeout) ;;
     or_raise (wait_for_visible page locator timeout) ;;
     ret true)
    (except_Exception (fun _ => ret false)).

End BasePage.

(* ================================================================== *)
(** * pages/locators.py and pages/home_page.py *)
(* ================================================================== *)

Module Loc.

Definition SEARCH_INPUT_SELECTOR : string := "[data-test-id='search-box-input']".
Definition SEARCH_INPUT_BY_NAME : string := "input[name='searchBoxInput']".
Definition SEARCH_PLACEHOLDER_PATTERN : string :=
  "Search|Tìm kiếm|搜索|検索|Rechercher".

End Loc.

Module HomePage.
Import BasePage.

Definition box_technical : Locator := ByCss Loc.SEARCH_INPUT_SELECTOR.
Definition box_by_name : Locator := ByCss Loc.SEARCH_INPUT_BY_NAME.
Definition box_label : Locator := ByPlaceholder Loc.SEARCH_PLACEHOLDER_PATTERN true.

(** The timeout each strategy is given. *)
Definition strategy_timeout : Z := 2000.

Definition not_found_message : string := "❌ Search box not found with any strategy!".

Definition _get_active_search_box (page : Page) : M Locator :=
  found <- is_visible_slow page box_technical 2000 ;;
  if found : bool then ret box_technical else
  found <- is_visible_slow page box_by_name 2000 ;;
  if found : bool then
    logger WARNING [T "⚠️ Primary selector failed. Using name attribute fallback."] ;;
    ret box_by_name
  else
  found <- is_visible_slow page box_label 2000 ;;
  if found : bool then
    logger WARNING [T "⚠️ Using placeholder pattern fallback."] ;;
    ret box_label
  else
  take_screenshot page "search_box_missing" ;;
  raise (mkExc Exception_ not_found_message).

(** The strategies in the order the function tries them, and what the
    page answers to each. *)
Definition candidates : list Locator := [box_technical; box_by_name; box_label].

Definition becomes_visible (page : Page) (l : Locator) : bool :=
  match wait_for_visible page l strategy_timeout with
  | None => true
  | Some _ => false
  end.

(** The elements of a list up to and including the first that satisfies
    [p] (all of them when none does). *)
Fixpoint through {A} (p : A -> bool) (l : list A) : list A :=
  match l with
  | [] => []
  | x :: r => if p x then [x] else x :: through p r
  end.

End HomePage.

(* ================================================================== *)
(** * The [json] decoder behind [Response.json()] *)
(* ================================================================== *)

Module Json.

(** [json.loads] as the standard decoder reads a document: whitespace is
    space, tab, newline and carriage return; a number without fraction
    and exponent is an [int]; [NaN], [Infinity] and [-Infinity] are
    accepted; a string may not hold a raw control character; nothing but
    whitespace may follow the value.  [None] stands for the decoder's
    [JSONDecodeError].  A dict keeps its pairs as written. *)

Definition code (c : ascii) : nat := nat_of_ascii c.

Definition is_ws (c : ascii) : bool :=
  let n := code c in ((n =? 32) || (n =? 9) || (n =? 10) || (n =? 13))%nat.

Definition is_digit (c : ascii) : bool :=
  let n := code c in ((48 <=? n) && (n <=? 57))%nat.

Fixpoint skip_ws (s : string) : string :=
  match s with
  | String c r => if is_ws c then skip_ws r else s
  | EmptyString => EmptyString
  end.

Fixpoint strip_prefix (p s : string) : option string :=
  match p, s with
  | EmptyString, _ => Some s
  | String a p', String b s' => if Ascii.eqb a b then strip_prefix p' s' else None
  | String _ _, EmptyString => None
  end.

(** The longest run of digits at the front, and what follows. *)
Fixpoint digits (s : string) : string * string :=
  match s with
  | String c r =>
      if is_digit c then let (ds, r') := digits r in (String c ds, r')
      else (EmptyString, s)
  | EmptyString => (EmptyString, EmptyString)
  end.

Fixpoint Z_of_digits (acc : Z) (ds : string) : Z :=
  match ds with
  | String c r => Z_of_digits (10 * acc + Z.of_nat (code c - 48)) r
  | EmptyString => acc
  end.

(** [0] or a digit from 1 to 9 followed by digits. *)
Definition int_part (s : string) : option (string * string) :=
  match s with
  | String c r =>
      if (code c =? 48)%nat then Some ("0", r)
      else if is_digit c then let (ds, r') := digits r in Some (String c ds, r')
      else None
  | EmptyString => None
  end.

Definition frac_part (s : string) : string * string :=
  match strip_prefix "." s with
  | Some r =>
      match digits r with
      | (EmptyString, _) => (EmptyString, s)
      | (ds, r') => ("." ^^ ds, r')
      end
  | None => (EmptyString, s)
  end.

Definition exp_part (s : string) : string * string :=
  match s with
  | String e r =>
      if ((code e =? 101) || (code e =? 69))%nat then
        let (sign, r1) :=
          match r with
          | String g r' =>
              if ((code g =? 43) || (code g =? 45))%nat
              then (String g EmptyString, r') else (EmptyString, r)
          | EmptyString => (EmptyString, r)
          end in
        match digits r1 with
        | (EmptyString, _) => (EmptyString, s)
        | (ds, r2) => (String e (sign ^^ ds), r2)
        end
      else (EmptyString, s)
  | EmptyString => (EmptyString, s)
  end.

Definition number (s : string) : option (Py.value * string) :=
  let (neg, s1) :=
    match strip_prefix "-" s with
    | Some r => (true, r)
    | None => (false, s)
    end in
  match int_part s1 with
  | None => None
  | Some (ip, s2) =>
      let (fr, s3) := frac_part s2 in
      let (ex, s4) := exp_part s3 in
      if String.eqb fr EmptyString && String.eqb ex EmptyString then
        let n := Z_of_digits 0 ip in
        Some (VInt (if neg then - n else n), s4)
      else
        Some (VFloat ((if neg then "-" else EmptyString) ^^ ip ^^ fr ^^ ex), s4)
  end.

Definition hex_val (c : ascii) : option nat :=
  let n := code c in
  if ((48 <=? n) && (n <=? 57))%nat then Some (n - 48)%nat
  else if ((97 <=? n) && (n <=? 102))%nat then Some (n - 87)%nat
  else if ((65 <=? n) && (n <=? 70))%nat then Some (n - 55)%nat
  else None.

Definition simple_escape (c : ascii) : option ascii :=
  let n := code c in
  if (n =? 34)%nat then Some c                       (* quote *)
  else if (n =? 92)%nat then Some c                  (* backslash *)
  else if (n =? 47)%nat then Some c                  (* slash *)
  else if (n =? 98)%nat then Some (ascii_of_nat 8)   (* b: backspace *)
  else if (n =? 102)%nat then Some (ascii_of_nat 12) (* f: form feed *)
  else if (n =? 110)%nat then Some (ascii_of_nat 10) (* n: newline *)
  else if (n =? 114)%nat then Some (ascii_of_nat 13) (* r: carriage return *)
  else if (n =? 116)%nat then Some (ascii_of_nat 9)  (* t: tab *)
  else None.

(** The one-character string holding a double quote. *)
Definition dquote : string := String (ascii_of_nat 34) EmptyString.

Definition cons_char (c : ascii) (r : option (string * string))
    : option (string * string) :=
  match r with
  | Some (str, rest) => Some (String c str, rest)
  | None => None
  end.

(** The characters of a string literal after its opening quote.  An
    escape [\uXXXX] below 256 becomes that character; a larger one stays
    as its six characters. *)
Fixpoint chars (s : string) : option (string * string) :=
  match s with
  | EmptyString => None
  | String c r =>
      if (code c =? 34)%nat then Some (EmptyString, r)
      else if (code c =? 92)%nat then
        match r with
        | String e r' =>
            match simple_escape e with
            | Some c' => cons_char c' (chars r')
            | None =>
                if (code e =? 117)%nat then
                  match r' with
                  | String h1 (String h2 (String h3 (String h4 r''))) =>
                      match hex_val h1, hex_val h2, hex_val h3, hex_val h4 with
                      | Some a, Some b, Some x, Some y =>
                          if ((a =? 0) && (b =? 0))%nat
                          then cons_char (ascii_of_nat (16 * x + y)) (chars r'')
                          else
                            match chars r'' with
                            | Some (str, rest) =>
                                Some (String c (String e (String h1 (String h2
                                        (String h3 (String h4 str))))), rest)
                            | None => None
                            end
                      | _, _, _, _ => None
                      end
                  | _ => None
                  end
                else None
            end
        | EmptyString => None
        end
      else if (code c <? 32)%nat then None
      else cons_char c (chars r)
  end.

Definition parser (A : Type) : Type := string -> option (A * string).

(** Elements of an array after its opening bracket: a value, then a
    comma or the closing bracket. *)
Fixpoint elements (pv : parser Py.value) (n : nat) (s : string)
    : option (list Py.value * string) :=
  match n with
  | O => None
  | S n' =>
      match pv s with
      | None => None
      | Some (v, r) =>
          match skip_ws r with
          | String c r' =>
              if (code c =? 44)%nat then
                match elements pv n' r' with
                | Some (vs, r'') => Some (v :: vs, r'')
                | None => None
                end
              else if (code c =? 93)%nat then Some ([v], r')
              else None
          | EmptyString => None
          end
      end
  end.

(** Members of an object: a quoted key, a colon and a value, then a
    comma or the closing brace. *)
Fixpoint members (pv : parser Py.value) (n : nat) (s : string)
    : option (list (string * Py.value) * string) :=
  match n with
  | O => None
  | S n' =>
      match strip_prefix dquote (skip_ws s) with
      | None => None
      | Some r0 =>
          match chars r0 with
          | None => None
          | Some (key, r1) =>
              match strip_prefix ":" (skip_ws r1) with
              | None => None
              | Some r2 =>
                  match pv r2 with
                  | None => None
                  | Some (v, r3) =>
                      match skip_ws r3 with
                      | String c r4 =>
                          if (code c =? 44)%nat then
                            match members pv n' r4 with
                            | Some (kvs, r5) => Some ((key, v) :: kvs, r5)
                            | None => None
                            end
                          else if (code c =? 125)%nat then Some ([(key, v)], r4)
                          else None
                      | EmptyString => None
                      end
                  end
              end
          end
      end
  end.

Definition literal (s : string) : option (Py.value * string) :=
  match strip_prefix "null" s with Some r => Some (VNone, r) | None =>
  match strip_prefix "true" s with Some r => Some (VBool true, r) | None =>
  match strip_prefix "false" s with Some r => Some (VBool false, r) | None =>
  match strip_prefix "NaN" s with Some r => Some (VFloat "nan", r) | None =>
  match strip_prefix "Infinity" s with Some r => Some (VFloat "inf", r) | None =>
  match strip_prefix "-Infinity" s with Some r => Some (VFloat "-inf", r) | None =>
  number s
  end end end end end end.

(** One value, skipping the whitespace before it.  [depth] bounds the
    nesting; a document cannot nest deeper than it is long. *)
Fixpoint scan (depth : nat) (s : string) : option (Py.value * string) :=
  match depth with
  | O => None
  | S d =>
      let s0 := skip_ws s in
      match s0 with
      | EmptyString => None
      | String c r =>
          if (code c =? 34)%nat then
            match chars r with
            | Some (str, rest) => Some (VStr str, rest)
            | None => None
            end
          else if (code c =? 91)%nat then
            match strip_prefix "]" (skip_ws r) with
            | Some rest => Some (VList [], rest)
            | None =>
                match elements (scan d) (String.length r) r with
                | Some (vs, rest) => Some (VList vs, rest)
                | None => None
                end
            end
          else if (code c =? 123)%nat then
            match strip_prefix "}" (skip_ws r) with
            | Some rest => Some (VDict [], rest)
            | None =>
                match members (scan d) (String.length r) r with
                | Some (kvs, rest) => Some (VDict kvs, rest)
                | None => None
                end
            end
          else literal s0
      end
  end.

Definition loads (s : string) : option Py.value :=
  match scan (S (String.length s)) s with
  | Some (v, rest) =>
      match skip_ws rest with
      | EmptyString => Some v
      | String _ _ => None
      end
  | None => None
  end.

End Json.

(* ================================================================== *)
(** * urllib3: one connection pool with a [Retry] policy *)
(* ================================================================== *)

Module Urllib3.

(** What can go wrong with one attempt before a response arrives. *)
Inductive error_kind : Type :=
| ConnectTimeoutError | NewConnectionError | ReadTimeoutError
| ProtocolError | SSLError | ProxyError.

Record error : Type := mkError { kind : error_kind; detail : string }.

Definition kind_name (k : error_kind) : string :=
  match k with
  | ConnectTimeoutError => "ConnectTimeoutError"
  | NewConnectionError => "NewConnectionError"
  | ReadTimeoutError => "ReadTimeoutError"
  | ProtocolError => "ProtocolError"
  | SSLError => "SSLError"
  | ProxyError => "ProxyError"
  end.

(** [repr(e)]. *)
Definition error_repr (e : error) : string :=
  kind_name (kind e) ^^ "(" ^^ detail e ^^ ")".

(** What can go wrong while the body is read. *)
Inductive body_error_kind : Type :=
| BodyProtocolError | BodyDecodeError | BodyReadTimeout | BodySSLError.

(** The body as the socket delivers it: pieces of data, or a failure
    after which nothing more comes. *)
Inductive body_item : Type :=
| Data (chunk : string)
| BodyFails (k : body_error_kind) (detail : string).

Record HTTPResponse : Type := mkHTTPResponse {
  status : Z;
  reason : string;
  headers : list (string * string);
  body : list body_item
}.

Inductive wire_outcome : Type :=
| Answered (r : HTTPResponse)
| Failed (e : error).

(** The network seen from the pool: what the [n]-th attempt of the run
    (counted from 0) meets. *)
Record Network : Type := mkNetwork {
  server : nat -> string -> string -> wire_outcome
}.

(** [Retry].  The client sets [total], [backoff_factor],
    [status_forcelist] and [allowed_methods]; the counters [connect],
    [read], [redirect], [status] and [other] keep their default [None]
    and so never count; [raise_on_status] and
    [respect_retry_after_header] default to [True]. *)
Record Retry : Type := mkRetry {
  total : Z;
  backoff_factor : Q;
  status_forcelist : list Z;
  allowed_methods : list string;
  raise_on_status : bool;
  respect_retry_after_header : bool
}.

Definition RETRY_AFTER_STATUS_CODES : list Z := [413; 429; 503].

Definition upper_char (c : ascii) : ascii :=
  let n := nat_of_ascii c in
  if ((97 <=? n) && (n <=? 122))%nat then ascii_of_nat (n - 32) else c.

Fixpoint upper (s : string) : string :=
  match s with
  | String c r => String (upper_char c) (upper r)
  | EmptyString => EmptyString
  end.

Definition mem_string (x : string) (l : list string) : bool :=
  existsb (String.eqb x) l.

Definition mem_Z (x : Z) (l : list Z) : bool := existsb (Z.eqb x) l.

Definition _is_method_retryable (r : Retry) (method : string) : bool :=
  match allowed_methods r with
  | [] => true
  | ms => mem_string (upper method) ms
  end.

Definition is_retry (r : Retry) (method : string) (status_code : Z)
    (has_retry_after : bool) : bool :=
  if negb (_is_method_retryable r method) then false
  else if mem_Z status_code (status_forcelist r) then true
  else negb (total r =? 0) && respect_retry_after_header r && has_retry_after
       && mem_Z status_code RETRY_AFTER_STATUS_CODES.

(** [is_exhausted]: of the counters only [total] is set; a counter at 0
    is dropped by [filter(None, ...)], so 0 is not yet exhausted. *)
Definition is_exhausted (r : Retry) : bool :=
  if total r =? 0 then false else total r <? 0.

Definition _is_read_error (e : error) : bool :=
  match kind e with
  | ReadTimeoutError | ProtocolError => true
  | _ => false
  end.

(** Why the retries ended. *)
Inductive cause : Type :=
| ResponseError (text : string)
| ByError (e : error).

Inductive exception : Type :=
| MaxRetryError (url : string) (c : cause)
| Reraised (e : error).

Definition with_total (r : Retry) (n : Z) : Retry :=
  {| total := n;
     backoff_factor := backoff_factor r;
     status_forcelist := status_forcelist r;
     allowed_methods := allowed_methods r;
     raise_on_status := raise_on_status r;
     respect_retry_after_header := respect_retry_after_header r |}.

(** [increment]: a new [Retry] with one retry less, or the exception it
    raises. *)
Definition increment (r : Retry) (method url : string) (err : option error)
    (resp : option HTTPResponse) : Retry + exception :=
  let reraise :=
    match err with
    | Some e => _is_read_error e && negb (_is_method_retryable r method)
    | None => false
    end in
  match err, reraise with
  | Some e, true => inr (Reraised e)
  | _, _ =>
      let c :=
        match err, resp with
        | Some e, _ => ByError e
        | None, Some rp =>
            if status rp =? 0 then ResponseError "too many error responses"
            else ResponseError
                   ("too many " ^^ str_of_int (status rp) ^^ " error responses")
        | None, None => ResponseError "too many error responses"
        end in
      let new_retry := with_total r (total r - 1) in
      if is_exhausted new_retry then inr (MaxRetryError url c)
      else inl new_retry
  end.

Definition lower_char (c : ascii) : ascii :=
  let n := nat_of_ascii c in
  if ((65 <=? n) && (n <=? 90))%nat then ascii_of_nat (n + 32) else c.

Fixpoint lower (s : string) : string :=
  match s with
  | String c r => String (lower_char c) (lower r)
  | EmptyString => EmptyString
  end.

(** [bool(response.headers.get("Retry-After"))]; header names compare
    without case. *)
Definition has_retry_after (resp : HTTPResponse) : bool :=
  existsb (fun kv => String.eqb (lower (fst kv)) "retry-after"
                     && str_truthy (snd kv)) (headers resp).

(** [urlopen] calls itself to retry; Python bounds the depth of calls
    ([sys.getrecursionlimit()]) and raises [RecursionError] beyond it. *)
Definition recursion_limit : nat := 1000.

(** [HTTPConnectionPool.urlopen(method, url, retries=retries,
    redirect=False)]: one attempt; on an error, or on a response whose
    status asks for a retry, [increment] and try again.  The sleep
    between attempts is not part of the history. *)
Fixpoint urlopen (net : Network) (depth : nat) (method url : string)
    (retries : Retry) : M (HTTPResponse + exception) :=
  match depth with
  | O => raise (mkExc RecursionError "maximum recursion depth exceeded")
  | S d =>
      t <- history ;;
      emit (HttpAttempt method url) ;;
      match server net (attempts t) method url with
      | Failed e =>
          match increment retries method url (Some e) None with
          | inl retries' => urlopen net d method url retries'
          | inr ex => ret (inr ex)
          end
      | Answered resp =>
          if is_retry retries method (status resp) (has_retry_after resp) then
            match increment retries method url None (Some resp) with
            | inl retries' => urlopen net d method url retries'
            | inr ex =>
                if raise_on_status retries then ret (inr ex)
                else ret (inl resp)
            end
          else ret (inl resp)
      end
  end.

End Urllib3.

(* ================================================================== *)
(** * requests: [Response], [HTTPAdapter], [Session] *)
(* ================================================================== *)

Module Requests.
Import Urllib3.

Record Response : Type := mkResponse {
  status_code : Z;
  reason : string;
  headers : list (string * string);
  url : string;
  raw : list body_item
}.

(** The body read in full: the data up to the end or the first failure. *)
Fixpoint content (b : list body_item) : string :=
  match b with
  | Data c :: r => c ^^ content r
  | BodyFails _ _ :: _ => EmptyString
  | [] => EmptyString
  end.

(** [Response.text], on a body already read. *)
Definition text (r : Response) : string := content (raw r).

(** The exception [iter_content] raises for a failure of the body. *)
Definition body_exception (k : body_error_kind) (detail : string) : exc :=
  match k with
  | BodyProtocolError => mkExc ChunkedEncodingError ("Connection broken: " ^^ detail)
  | BodyDecodeError =>
      mkExc ContentDecodingError
        ("Received response with content-encoding: " ^^ detail
           ^^ ", but failed to decode it.")
  | BodyReadTimeout => mkExc ConnectionError ("Read timed out." ^^ detail)
  | BodySSLError => mkExc Py.SSLError detail
  end.

Fixpoint first_failure (b : list body_item) : option exc :=
  match b with
  | Data _ :: r => first_failure r
  | BodyFails k d :: _ => Some (body_exception k d)
  | [] => None
  end.

(** [raise_for_status]: the message is empty unless the status is a
    client or a server error. *)
Definition http_error_msg (r : Response) : string :=
  if (400 <=? status_code r) && (status_code r <? 500) then
    str_of_int (status_code r) ^^ " Client Error: " ^^ reason r
      ^^ " for url: " ^^ url r
  else if (500 <=? status_code r) && (status_code r <? 600) then
    str_of_int (status_code r) ^^ " Server Error: " ^^ reason r
      ^^ " for url: " ^^ url r
  else EmptyString.

Definition raise_for_status (r : Response) : M unit :=
  if str_truthy (http_error_msg r) then raise (mkExc HTTPError (http_error_msg r))
  else ret tt.

(** [Response.ok]: whether [raise_for_status] goes through. *)
Definition ok (r : Response) : bool :=
  match raise_for_status r [] with
  | (Ret _, _) => true
  | (Raise e, _) => negb (isinstance e HTTPError)
  end.

(** [Response.json()]. *)
Definition json (r : Response) : M Py.value :=
  match Json.loads (text r) with
  | Some v => ret v
  | None => raise (mkExc JSONDecodeError "Expecting value")
  end.

(** [str(MaxRetryError)], the pool's own name left out. *)
Definition max_retry_text (u : string) (c : cause) : string :=
  "Max retries exceeded with url: " ^^ u ^^ " (Caused by "
    ^^ match c with
       | ResponseError txt => "ResponseError('" ^^ txt ^^ "')"
       | ByError e => error_repr e
       end ^^ ")".

(** The [except] clauses of [HTTPAdapter.send]. *)
Definition adapter_exception (ex : exception) : exc :=
  match ex with
  | MaxRetryError u c =>
      let txt := max_retry_text u c in
      match c with
      | ByError e =>
          match kind e with
          | ConnectTimeoutError => mkExc ConnectTimeout txt
          | ProxyError => mkExc Py.ProxyError txt
          | SSLError => mkExc Py.SSLError txt
          | NewConnectionError | ReadTimeoutError | ProtocolError =>
              mkExc ConnectionError txt
          end
      | ResponseError _ => mkExc RetryError txt
      end
  | Reraised e =>
      match kind e with
      | ProtocolError => mkExc ConnectionError (detail e)
      | ReadTimeoutError => mkExc ReadTimeout (detail e)
      | SSLError => mkExc Py.SSLError (detail e)
      | ProxyError => mkExc Py.ProxyError (detail e)
      | ConnectTimeoutError | NewConnectionError =>
          mkExc Urllib3HTTPError (detail e)
      end
  end.

Definition build_response (u : string) (resp : HTTPResponse) : Response :=
  {| status_code := status resp;
     reason := Urllib3.reason resp;
     headers := Urllib3.headers resp;
     url := u;
     raw := body resp |}.

Definition HTTPAdapter_send (net : Network) (max_retries : Retry)
    (method u : string) : M Response :=
  r <- urlopen net recursion_limit method u max_retries ;;
  match r with
  | inl resp => ret (build_response u resp)
  | inr ex => raise (adapter_exception ex)
  end.

(** A session: the adapter mounted for [http://] and [https://], the
    default headers, and the network it talks to. *)
Record Session : Type := mkSession {
  max_retries : Retry;
  session_headers : list (string * string);
  network : Network
}.

(** What a call passes besides method and URL. *)
Record request_args : Type := mkArgs {
  arg_data : option Py.value;
  arg_json : option Py.value;
  arg_params : option Py.value;
  arg_stream : bool;
  arg_timeout : Q
}.

(** [Session.request]: send through the adapter; unless [stream] is set
    the body is read before the response is handed back.  The request is
    taken as already prepared, and responses as final (no redirect is
    followed). *)
Definition Session_request (s : Session) (method u : string) (a : request_args)
    : M Response :=
  r <- HTTPAdapter_send (network s) (max_retries s) method u ;;
  if arg_stream a then ret r
  else
    match first_failure (raw r) with
    | Some e => raise e
    | None => ret r
    end.

(** [for chunk in response.iter_content(...): body chunk]. *)
Fixpoint for_iter_content (b : list body_item) (loop_body : string -> M unit)
    : M unit :=
  match b with
  | [] => ret tt
  | Data c :: r => loop_body c ;; for_iter_content r loop_body
  | BodyFails k d :: _ => raise (body_exception k d)
  end.

End Requests.

(* ================================================================== *)
(** * utils/pinterest_api.py *)
(* ================================================================== *)

Module PinterestApi.
Import Requests.

Inductive HTTPMethod : Type := GET | POST | PUT | DELETE | PATCH.

Definition value (m : HTTPMethod) : string :=
  match m with
  | GET => "GET" | POST => "POST" | PUT => "PUT"
  | DELETE => "DELETE" | PATCH => "PATCH"
  end.

Record APIResponse : Type := mkAPIResponse {
  status_code : Z;
  data : Py.value;
  success : bool;
  error_message : string;
  headers : list (string * string)
}.

(** [APIResponse(status_code=..., success=..., error_message=...)]:
    [data] and [headers] take their defaults, [None] and [{}]. *)
Definition APIResponse_failure (code : Z) (msg : string) : APIResponse :=
  {| status_code := code; data := VNone; success := false;
     error_message := msg; headers := [] |}.

Definition is_ok (r : APIResponse) : bool :=
  (200 <=? status_code r) && (status_code r <? 300).

Definition is_created (r : APIResponse) : bool := status_code r =? 201.

Definition is_not_found (r : APIResponse) : bool := status_code r =? 404.

Definition MAX_RETRIES : Z := 3.
Definition BACKOFF_FACTOR : Q := 1 # 2.
Definition RETRY_STATUS_CODES : list Z := [429; 500; 502; 503; 504].

(** [settings.default_headers]. *)
Definition default_headers : list (string * string) :=
  [("User-Agent",
    "Mozilla/5.0 (Windows NT 10.0; Win64; x64) "
      ^^ "AppleWebKit/537.36 (KHTML, like Gecko) "
      ^^ "Chrome/135.0.0.0 Safari/537.36");
   ("Accept-Language", "en-US,en;q=0.9")].

Record BaseAPIClient : Type := mkClient {
  _base_url : string;
  _session : Session
}.

Definition _create_session (net : Urllib3.Network) : Session :=
  let retry_strategy :=
    {| Urllib3.total := MAX_RETRIES;
       Urllib3.backoff_factor := BACKOFF_FACTOR;
       Urllib3.status_forcelist := RETRY_STATUS_CODES;
       Urllib3.allowed_methods := ["GET"; "POST"; "PUT"; "DELETE"; "PATCH"];
       Urllib3.raise_on_status := true;
       Urllib3.respect_retry_after_header := true |} in
  {| max_retries := retry_strategy;
     session_headers := default_headers;
     network := net |}.

(** [base_url.rstrip("/")]. *)
Fixpoint rstrip_slash (s : string) : string :=
  match s with
  | String c r =>
      match rstrip_slash r with
      | EmptyString =>
          if (nat_of_ascii c =? 47)%nat then EmptyString
          else String c EmptyString
      | r' => String c r'
      end
  | EmptyString => EmptyString
  end.

(** The object [BaseAPIClient(base_url)] builds, on network [net]. *)
Definition new_client (net : Urllib3.Network) (base_url : string) : BaseAPIClient :=
  {| _base_url := rstrip_slash base_url; _session := _create_session net |}.

Definition BaseAPIClient_init (net : Urllib3.Network) (base_url : string)
    : M BaseAPIClient :=
  let self := new_client net base_url in
  logger DEBUG [T "🔌 API Client initialized. Endpoint: "; T (_base_url self)] ;;
  ret self.

(** [PinterestAPIClient(base_url)]: [base_url or settings.urls.base_api]. *)
Definition PinterestAPIClient_init (net : Urllib3.Network)
    (base_url : option string) (settings_base_api : string) : M BaseAPIClient :=
  BaseAPIClient_init net (BasePage.str_or base_url settings_base_api).

Definition _process_response (response : Response) : M APIResponse :=
  data <- try_except
            (if str_truthy (text response) then json response
             else ret (VDict []))
            (fun e =>
               if isinstance e ValueError
               then Some (ret (VDict [("raw_text",
                                       VStr (substring 0 500 (text response)))]))
               else None) ;;
  let log_level := if ok response then "✅" else "⚠️" in
  logger DEBUG [T "   "; T log_level; T " Status: ";
                T (str_of_int (Requests.status_code response))] ;;
  ret {| status_code := Requests.status_code response;
         data := data;
         success := ok response;
         error_message := if ok response then EmptyString else reason response;
         headers := Requests.headers response |}.

(** [if json_data:]. *)
Definition opt_truthy (v : option Py.value) : bool :=
  match v with Some x => truthy x | None => false end.

Section WithSettings.

(** [settings.timeouts], read when a request is made. *)
Variable timeouts : Settings.TimeoutConfig.

Definition _make_request (self : BaseAPIClient) (method : HTTPMethod)
    (endpoint : string) (data json_data params : option Py.value)
    : M APIResponse :=
  let url := _base_url self ^^ endpoint in
  logger DEBUG [T "📡 ["; T (value method); T "] "; T url] ;;
  (if opt_truthy json_data
   then logger DEBUG [T "   Payload: "; V (match json_data with
                                           | Some v => v | None => VNone end)]
   else ret tt) ;;
  try_except
    (response <- Session_request (_session self) (value method) url
                   {| arg_data := data; arg_json := json_data;
                      arg_params := params; arg_stream := false;
                      arg_timeout :=
                        (inject_Z (Settings.DEFAULT_TIMEOUT timeouts) / 1000)%Q |} ;;
     _process_response response)
    (fun e =>
       if isinstance e Timeout then
         Some (logger ERROR [T "⏱️ [API] Timeout: "; T url] ;;
               ret (APIResponse_failure 408 "Request timed out"))
       else if isinstance e ConnectionError then
         Some (logger ERROR [T "❌ [API] Connection Error: "; T (exc_str e)] ;;
               ret (APIResponse_failure 503 ("Connection failed: " ^^ exc_str e)))
       else if isinstance e RequestException then
         Some (logger ERROR [T "❌ [API] Request Error: "; T (exc_str e)] ;;
               ret (APIResponse_failure 500 (exc_str e)))
       else None).

Definition get (self : BaseAPIClient) (endpoint : string)
    (params : option Py.value) : M APIResponse :=
  _make_request self GET endpoint None None params.

Definition post (self : BaseAPIClient) (endpoint : string)
    (data json_data : option Py.value) : M APIResponse :=
  _make_request self POST endpoint data json_data None.

Definition put (self : BaseAPIClient) (endpoint : string)
    (data json_data : option Py.value) : M APIResponse :=
  _make_request self PUT endpoint data json_data None.

Definition patch (self : BaseAPIClient) (endpoint : string)
    (json_data : option Py.value) : M APIResponse :=
  _make_request self PATCH endpoint None json_data None.

Definition delete (self : BaseAPIClient) (endpoint : string) : M APIResponse :=
  _make_request self DELETE endpoint None None None.

End WithSettings.

(** The disk under [open(save_path, "wb")] and [f.write(chunk)]. *)
Record Disk : Type := mkDisk {
  fs_open : string -> option exc;
  fs_write : string -> string -> option exc
}.

(** What follows the last slash of a path. *)
Fixpoint last_component (p : string) : string :=
  match p with
  | String c r =>
      if existsb (fun x => (nat_of_ascii x =? 47)%nat) (list_ascii_of_string r)
      then last_component r
      else if (nat_of_ascii c =? 47)%nat then r else p
  | EmptyString => EmptyString
  end.

(** [Path.name]: the final component; a [Path] drops trailing slashes. *)
Definition path_name (p : string) : string := last_component (rstrip_slash p).

(** [f.write(chunk)] on the file opened at [path]. *)
Definition file_write (disk : Disk) (path chunk : string) : M unit :=
  emit (FileWrite path chunk) ;;
  or_raise (fs_write disk path chunk).

Definition download_file (self : BaseAPIClient) (disk : Disk)
    (url save_path : string) : M bool :=
  try_except
    (response <- Session_request (_session self) "GET" url
                   {| arg_data := None; arg_json := None; arg_params := None;
                      arg_stream := true; arg_timeout := 30%Q |} ;;
     raise_for_status response ;;
     emit (FileOpen save_path) ;;
     or_raise (fs_open disk save_path) ;;
     for_iter_content (raw response) (file_write disk save_path) ;;
     logger INFO [T "⬇️ Downloaded: "; T (path_name save_path)] ;;
     ret true)
    (except_Exception (fun e =>
       logger ERROR [T "❌ Download failed for "; T url; T ": "; T (exc_str e)] ;;
       ret false)).

End PinterestApi.

(* ================================================================== *)
(** * Concrete pages and networks *)
(* ================================================================== *)

Module Scenarios.
Import BasePage HomePage.

Definition Locator_eqb (a b : Locator) : bool :=
  match a, b with
  | ByCss x, ByCss y => String.eqb x y
  | ByPlaceholder x i, ByPlaceholder y j => String.eqb x y && Bool.eqb i j
  | ByLabel x, ByLabel y => String.eqb x y
  | _, _ => false
  end.

(** What Playwright raises when a wait runs out. *)
Definition timeout_error : exc :=
  mkExc PlaywrightTimeoutError "Timeout 2000ms exceeded.".

Definition detached_error : exc :=
  mkExc PlaywrightError "Element is not attached to the DOM".

(** A page on which exactly the locators in [visible] show up, clicks
    and fills on [broken] fail, and screenshots work. *)
Definition page_showing (visible broken : Locator -> bool) : Page :=
  {| wait_for_visible := fun l _ => if visible l then None else Some timeout_error;
     locator_click := fun l _ => if broken l then Some detached_error else None;
     locator_fill := fun l _ _ => if broken l then Some detached_error else None;
     locator_text_content :=
       fun l => if broken l then Raise detached_error else Ret (Some " Pins ");
     locator_is_visible := visible;
     page_screenshot := fun _ => None;
     now := fun _ => "2025-01-31_09-30-00" |}.

(** A [TimeoutConfig] as one import may draw it. *)
Definition timeouts0 : Settings.TimeoutConfig :=
  Settings.mkTimeoutConfig 30000 412 1800 3100 60000 45000 10000.

(** A server that gives the same answer to every attempt. *)
Definition always (o : Urllib3.wire_outcome) : Urllib3.Network :=
  {| Urllib3.server := fun _ _ _ => o |}.

Definition answer (code : Z) (phrase : string) (body : string) : Urllib3.wire_outcome :=
  Urllib3.Answered
    {| Urllib3.status := code; Urllib3.reason := phrase;
       Urllib3.headers := [("Content-Type", "application/json")];
       Urllib3.body := match body with
                       | EmptyString => []
                       | _ => [Urllib3.Data body]
                       end |}.

(** A network on which every attempt fails the same way. *)
Definition failing (k : Urllib3.error_kind) (detail : string) : Urllib3.Network :=
  always (Urllib3.Failed (Urllib3.mkError k detail)).

Definition unavailable : Urllib3.Network := always (answer 503 "Service Unavailable" "{}").
Definition not_modified : Urllib3.Network := always (answer 304 "Not Modified" EmptyString).
Definition json_null : Urllib3.Network := always (answer 200 "OK" "null").

(** A disk that takes every write. *)
Definition good_disk : PinterestApi.Disk :=
  {| PinterestApi.fs_open := fun _ => None;
     PinterestApi.fs_write := fun _ _ => None |}.

Definition nothing : Locator -> bool := fun _ => false.
Definition everything : Locator -> bool := fun _ => true.
Definition only (l : Locator) : Locator -> bool := Locator_eqb l.

End Scenarios.

(* ================================================================== *)
(** * config/settings.py: environments, URLs, credentials *)
(* ================================================================== *)

Module SettingsEnv.

Inductive Environment : Type := LOCAL | STAGING | PRODUCTION.

(** The value of each member of the enum. *)
Definition value (e : Environment) : string :=
  match e with
  | LOCAL => "local"
  | STAGING => "staging"
  | PRODUCTION => "production"
  end.

Definition Environment_eqb (a b : Environment) : bool :=
  match a, b with
  | LOCAL, LOCAL | STAGING, STAGING | PRODUCTION, PRODUCTION => true
  | _, _ => false
  end.

(** [Environment(s)]: the member whose value is [s]; [None] stands for
    the [ValueError] of an unknown value. *)
Definition Environment_of (s : string) : option Environment :=
  find (fun e => String.eqb (value e) s) [LOCAL; STAGING; PRODUCTION].

(** The two dictionaries, as written. *)
Definition ENV_URLS : list (Environment * string) :=
  [(LOCAL, "http://localhost:3000");
   (STAGING, "https://staging.pinterest.com");
   (PRODUCTION, "https://www.pinterest.com")].

Definition ENV_API_URLS : list (Environment * string) :=
  [(LOCAL, "http://localhost:8000/v3");
   (STAGING, "https://api-staging.pinterest.com/v3");
   (PRODUCTION, "https://api.pinterest.com/v3")].

(** [d.get(k)]: the first pair with the key. *)
Fixpoint dict_lookup (d : list (Environment * string)) (k : Environment)
    : option string :=
  match d with
  | [] => None
  | (k', v) :: r => if Environment_eqb k' k then Some v else dict_lookup r k
  end.

(** [d.get(k, default)]. *)
Definition dict_get (d : list (Environment * string)) (k : Environment)
    (default : string) : string :=
  match dict_lookup d k with
  | Some v => v
  | None => default
  end.

(** [d[k]]; [None] stands for the [KeyError] of a key the dictionary
    does not hold. *)
Definition dict_item (d : list (Environment * string)) (k : Environment)
    : option string :=
  dict_lookup d k.

Record URLConfig : Type := mkURLConfig {
  base_ui : string;
  base_api : string;
  login_path : string
}.

Definition full_login_url (c : URLConfig) : string := base_ui c ^^ login_path c.

(** [os.getenv("TEST_ENV", "production").lower()], then the enum; an
    unknown name prints a warning and falls back to production.  The
    result comes with the lines printed. *)
Definition _get_environment (TEST_ENV : option string)
    : Environment * list string :=
  let env_str :=
    Urllib3.lower (match TEST_ENV with Some s => s | None => "production" end) in
  match Environment_of env_str with
  | Some e => (e, [])
  | None =>
      (PRODUCTION,
       ["[WARNING] Unknown env '" ^^ env_str ^^ "', falling back to PRODUCTION"])
  end.

(** [_configure_urls]: the default handed to each [get] is looked up
    first, with [[]]; [None] stands for its [KeyError]. *)
Definition _configure_urls (environment : Environment) : option URLConfig :=
  match dict_item ENV_URLS PRODUCTION, dict_item ENV_API_URLS PRODUCTION with
  | Some ui_default, Some api_default =>
      Some {| base_ui := dict_get ENV_URLS environment ui_default;
              base_api := dict_get ENV_API_URLS environment api_default;
              login_path := "/login/" |}
  | _, _ => None
  end.

(** [TestCredentials.is_valid]: [bool(self.email and self.password)]. *)
Definition is_valid (email password : string) : bool :=
  str_truthy (if str_truthy email then password else email).

End SettingsEnv.

(* ================================================================== *)
(** * The other methods of the pages that need no more of the browser *)
(* ================================================================== *)

Module Pages.
Import BasePage.

(** [HomePage._dismiss_popup_if_present]. *)
Definition _dismiss_popup_if_present (page : Page) : M unit :=
  let popup_close := ByLabel "Close" in
  shown <- is_visible_slow page popup_close 3000 ;;
  if shown : bool then
    logger INFO [T "🧹 Dismissing popup..."] ;;
    try_except
      (emit (Click popup_close []) ;;
       or_raise (locator_click page popup_close []))
      (except_Exception (fun _ => ret tt))
  else ret tt.

(** [LoginPage.get_error_message]; [is_visible_slow] is called with its
    default timeout, 3000. *)
Definition get_error_message (page : Page) : M string :=
  let error_loc := ByCss "[data-test-id='login-error']" in
  shown <- is_visible_slow page error_loc 3000 ;;
  if shown : bool then get_text page error_loc (Some "Error Message")
  else ret EmptyString.

Definition FEED_GRID : string := "[data-test-id='max-width-container']".
Definition PIN_ITEM : string := "[data-test-id='pin']".
Definition PIN_IMAGE_LOADED : string :=
  "[data-test-id='non-story-pin-image'] img[src*='pinimg.com']".

(** [SearchResultPage.is_no_results]. *)
Definition is_no_results (page : Page) : M bool :=
  has_grid <- is_visible_slow page (ByCss FEED_GRID) 5000 ;;
  (if negb has_grid
   then logger INFO [T "🚫 No search results - FEED_GRID not found"]
   else ret tt) ;;
  ret (negb has_grid).

(** Whether a text begins or ends with whitespace. *)
Definition starts_with_space (s : string) : bool :=
  match s with
  | String c _ => is_space c
  | EmptyString => false
  end.

Fixpoint ends_with_space (s : string) : bool :=
  match s with
  | EmptyString => false
  | String c EmptyString => is_space c
  | String _ r => ends_with_space r
  end.

End Pages.

(* ================================================================== *)
(** * Strings and lists of Python the pages use *)
(* ================================================================== *)

Module PyStr.

(** [s.split(sep)] for a separator of one character: never empty, and
    [''.split(sep)] is [['']]. *)
Fixpoint split_on (sep : ascii) (s : string) : list string :=
  match s with
  | EmptyString => [EmptyString]
  | String c r =>
      if Ascii.eqb c sep then EmptyString :: split_on sep r
      else
        match split_on sep r with
        | p :: ps => String c p :: ps
        | [] => [String c EmptyString]
        end
  end.

(** [l[i]], counting from the end for a negative [i]; [None] stands for
    the [IndexError]. *)
Definition py_index {A} (l : list A) (i : Z) : option A :=
  let n := Z.of_nat (List.length l) in
  if 0 <=? i then nth_error l (Z.to_nat i)
  else if 0 <=? n + i then nth_error l (Z.to_nat (n + i))
  else None.

(** Truth of a value that is a [str] or [None]. *)
Definition opt_truthy (x : option string) : bool :=
  match x with
  | Some s => str_truthy s
  | None => false
  end.

Definition comma : ascii := ascii_of_nat 44.
Definition space : ascii := ascii_of_nat 32.

(** Whether a character occurs in a text. *)
Fixpoint has_char (c : ascii) (s : string) : bool :=
  match s with
  | EmptyString => false
  | String x r => Ascii.eqb x c || has_char c r
  end.

End PyStr.

(* ================================================================== *)
(** * The rest of the browser, and the pages that use it *)
(* ================================================================== *)

Module Browser.
Import BasePage.

(** The history with the further calls of Playwright: [page.goto],
    [page.wait_for_timeout], [locator.type], [locator.press],
    [page.mouse.wheel], [locator.count], [locator.get_attribute].  The
    events of before sit under [Old]. *)
Inductive xevent : Type :=
| Old (ev : event)
| Goto (url : string)
| WaitForTimeout (ms : Z)
| TypeText (l : Locator) (text : string) (delay : Z)
| Press (l : Locator) (key : string)
| Wheel (dx dy : Z)
| Count (l : Locator)
| GetAttribute (l : Locator) (name : string).

Definition xtrace : Type := list xevent.

Definition MX (A : Type) : Type := xtrace -> result A * xtrace.

Definition xret {A} (a : A) : MX A := fun t => (Ret a, t).

Definition xraise {A} (e : exc) : MX A := fun t => (Raise e, t).

Definition xbind {A B} (m : MX A) (k : A -> MX B) : MX B :=
  fun t =>
    match m t with
    | (Ret a, t') => k a t'
    | (Raise e, t') => (Raise e, t')
    end.

Definition xemit (ev : xevent) : MX unit := fun t => (Ret tt, t ++ [ev]).

Definition xhistory : MX xtrace := fun t => (Ret t, t).

Definition xtry_except {A} (body : MX A) (handler : exc -> option (MX A)) : MX A :=
  fun t =>
    match body t with
    | (Ret a, t') => (Ret a, t')
    | (Raise e, t') =>
        match handler e with
        | Some h => h t'
        | None => (Raise e, t')
        end
    end.

Definition xexcept_Exception {A} (h : exc -> MX A) : exc -> option (MX A) :=
  fun e => if isinstance e Exception_ then Some (h e) else None.

Definition xor_raise (o : option exc) : MX unit :=
  match o with
  | None => xret tt
  | Some e => xraise e
  end.

Definition xlift {A} (r : result A) : MX A := fun t => (r, t).

(** The events of before in a history. *)
Fixpoint olds (xt : xtrace) : trace :=
  match xt with
  | [] => []
  | Old ev :: r => ev :: olds r
  | _ :: r => olds r
  end.

(** A statement of before, run in the wider history: it sees the events
    of before and appends its own. *)
Definition old {A} (m : M A) : MX A :=
  fun xt =>
    let t := olds xt in
    match m t with
    | (r, t') => (r, xt ++ map Old (skipn (List.length t) t'))
    end.

Declare Scope xpy_scope.
Delimit Scope xpy_scope with xpy.
Notation "x <- c1 ;; c2" := (xbind c1 (fun x => c2))
  (at level 61, c1 at next level, right associativity) : xpy_scope.
Notation "c1 ;; c2" := (xbind c1 (fun _ => c2))
  (at level 61, right associativity) : xpy_scope.
Local Open Scope xpy_scope.

Definition xlogger (lv : level) (msg : list fragment) : MX unit :=
  xemit (Old (Log lv msg)).

(** The browser: the page of before and the answers of the further
    calls.  What [count] and [get_attribute] answer may change as the
    page loads, so they depend on the history. *)
Record XPage : Type := mkXPage {
  base : Page;
  page_goto : string -> option exc;
  page_wait_for_timeout : Z -> option exc;
  locator_type : Locator -> string -> Z -> option exc;
  locator_press : Locator -> string -> option exc;
  mouse_wheel : Z -> Z -> option exc;
  locator_count : xtrace -> Locator -> result Z;
  locator_get_attribute : xtrace -> Locator -> string -> result (option string)
}.

Definition goto (xp : XPage) (url : string) : MX unit :=
  xemit (Goto url) ;; xor_raise (page_goto xp url).

Definition wait_for_timeout (xp : XPage) (ms : Z) : MX unit :=
  xemit (WaitForTimeout ms) ;; xor_raise (page_wait_for_timeout xp ms).

Definition type_ (xp : XPage) (l : Locator) (text : string) (delay : Z) : MX unit :=
  xemit (TypeText l text delay) ;; xor_raise (locator_type xp l text delay).

Definition press (xp : XPage) (l : Locator) (key : string) : MX unit :=
  xemit (Press l key) ;; xor_raise (locator_press xp l key).

Definition wheel (xp : XPage) (dx dy : Z) : MX unit :=
  xemit (Wheel dx dy) ;; xor_raise (mouse_wheel xp dx dy).

Definition count (xp : XPage) (l : Locator) : MX Z :=
  xt <- xhistory ;;
  xemit (Count l) ;;
  xlift (locator_count xp xt l).

Definition get_attribute (xp : XPage) (l : Locator) (name : string)
    : MX (option string) :=
  xt <- xhistory ;;
  xemit (GetAttribute l name) ;;
  xlift (locator_get_attribute xp xt l name).

(** [page.locator(selector).nth(index)]: Playwright builds the locator
    of the selector followed by [>> nth=index]. *)
Definition nth (selector : string) (index : Z) : Locator :=
  ByCss (selector ^^ " >> nth=" ^^ str_of_int index).

(** [locator.click()], called on the locator itself. *)
Definition locator_click_ (xp : XPage) (l : Locator) : MX unit :=
  old (emit (Click l []) ;; or_raise (locator_click (base xp) l []))%py.

(** [BasePage.open]. *)
Definition open (xp : XPage) (url : string) : MX unit :=
  xlogger INFO [T "🌍 Navigating to: "; T url] ;;
  goto xp url.

Section WithSettings.

(** [settings.timeouts] and [settings.urls.base_ui]. *)
Variable timeouts : Settings.TimeoutConfig.
Variable base_ui : string.

(** [HomePage.navigate]. *)
Definition navigate (xp : XPage) : MX unit :=
  open xp base_ui ;;
  old (Pages._dismiss_popup_if_present (base xp)).

(** [HomePage.search_for]. *)
Definition search_for (xp : XPage) (keyword : string) : MX unit :=
  xlogger INFO [T "🔍 Searching for: '"; T keyword; T "'"] ;;
  search_box <- old (HomePage._get_active_search_box (base xp)) ;;
  locator_click_ xp search_box ;;
  wait_for_timeout xp (Settings.TYPING_TIMEOUT timeouts) ;;
  type_ xp search_box keyword (Settings.TYPING_TIMEOUT timeouts) ;;
  xlogger INFO [T "⌨️ Typed '"; T keyword; T "' into Search Box"] ;;
  wait_for_timeout xp (Settings.SHORT13_TIMEOUT timeouts) ;;
  press xp search_box "Enter".

(** [SearchResultPage.click_pin]. *)
Definition click_pin (xp : XPage) (index : Z) : MX unit :=
  xlogger INFO [T "🖱️ Clicking pin at index "; T (str_of_int index)] ;;
  found <- count xp (ByCss Pages.PIN_ITEM) ;;
  if found <=? index then
    again <- count xp (ByCss Pages.PIN_ITEM) ;;
    xraise (mkExc Exception_
              ("Cannot click pin #" ^^ str_of_int index ^^ ", only found "
                 ^^ str_of_int again ^^ " pins."))
  else
    old (click (base xp) (nth Pages.PIN_ITEM index)
           ("Pin #" ^^ str_of_int index) []).

(** The body of [for _ in range(n)] in [load_more_by_scrolling]. *)
Fixpoint scroll_loop (xp : XPage) (n : nat) : MX unit :=
  match n with
  | O => xret tt
  | S n' =>
      wheel xp 0 5000 ;;
      wait_for_timeout xp (Settings.SHORT13_TIMEOUT timeouts) ;;
      scroll_loop xp n'
  end.

(** [SearchResultPage.load_more_by_scrolling]. *)
Definition load_more_by_scrolling (xp : XPage) (scrolls : Z) : MX unit :=
  xlogger INFO [T "📜 Scrolling "; T (str_of_int scrolls);
                T " times to load more pins..."] ;;
  scroll_loop xp (Z.to_nat scrolls).

End WithSettings.

(** [SearchResultPage.get_loaded_pins_count]. *)
Definition get_loaded_pins_count (xp : XPage) : MX Z :=
  found <- count xp (ByCss Pages.PIN_ITEM) ;;
  xlogger DEBUG [T "👀 Found "; T (str_of_int found); T " pins on screen"] ;;
  xret found.

(** [SearchResultPage.wait_for_results]. *)
Definition wait_for_results (xp : XPage) (min_count timeout : Z) : MX Z :=
  xlogger INFO [T "⏳ Waiting for at least "; T (str_of_int min_count);
                T " pins to load..."] ;;
  xtry_except
    (old (emit (WaitFor (nth Pages.PIN_ITEM (min_count - 1)) timeout) ;;
          or_raise (wait_for_visible (base xp)
                      (nth Pages.PIN_ITEM (min_count - 1)) timeout))%py)
    (xexcept_Exception (fun _ =>
       xlogger WARNING [T "⚠️ Timeout waiting for "; T (str_of_int min_count);
                        T " pins."])) ;;
  get_loaded_pins_count xp.

(** The URL [get_image_urls] keeps for one image, from its [srcset] and
    [src] attributes; [None] is Python's [None].  The two subscripts sit
    in a [try] whose [except IndexError] takes [src]. *)
Definition final_url (srcset src : option string) : option string :=
  match srcset with
  | Some ss =>
      if str_truthy ss then
        match PyStr.py_index (PyStr.split_on PyStr.comma ss) (-1) with
        | Some candidate =>
            match PyStr.py_index (PyStr.split_on PyStr.space (strip candidate)) 0 with
            | Some u => Some u
            | None => src
            end
        | None => src
        end
      else if PyStr.opt_truthy src then src else Some EmptyString
  | None => if PyStr.opt_truthy src then src else Some EmptyString
  end.

(** The body of [for i in range(count)], from [i] on, [n] rounds. *)
Fixpoint extract_loop (xp : XPage) (n : nat) (i : Z) (urls : list string)
    : MX (list string) :=
  match n with
  | O => xret urls
  | S n' =>
      let img := nth Pages.PIN_IMAGE_LOADED i in
      srcset <- get_attribute xp img "srcset" ;;
      src <- get_attribute xp img "src" ;;
      match final_url srcset src with
      | Some u =>
          if str_truthy u then
            xlogger DEBUG [T "✅ Image "; T (str_of_int (i + 1)); T ": "; T u] ;;
            extract_loop xp n' (i + 1) (urls ++ [u])
          else extract_loop xp n' (i + 1) urls
      | None => extract_loop xp n' (i + 1) urls
      end
  end.

(** [SearchResultPage.get_image_urls]; [wait_for_results] is called with
    its default timeout, 10000. *)
Definition get_image_urls (xp : XPage) (limit : Z) : MX (list string) :=
  xlogger INFO [T "🔍 Extracting top "; T (str_of_int limit); T " image URLs..."] ;;
  wait_for_results xp limit 10000 ;;
  loaded <- count xp (ByCss Pages.PIN_IMAGE_LOADED) ;;
  let n := Z.min loaded limit in
  loaded_again <- count xp (ByCss Pages.PIN_IMAGE_LOADED) ;;
  xlogger DEBUG [T "📷 Found "; T (str_of_int loaded_again);
                 T " loaded images, extracting "; T (str_of_int n)] ;;
  urls <- extract_loop xp (Z.to_nat n) 0 [] ;;
  xlogger INFO [T "📝 Extracted "; T (str_of_int (Z.of_nat (List.length urls)));
                T " URLs"] ;;
  xret urls.

(** The events of a kind in a history. *)
Definition is_keyboard (ev : xevent) : bool :=
  match ev with
  | TypeText _ _ _ | Press _ _ => true
  | _ => false
  end.

Definition is_wheel (ev : xevent) : bool :=
  match ev with Wheel _ _ => true | _ => false end.

Definition is_old_click (ev : xevent) : bool :=
  match ev with Old (Click _ _) => true | _ => false end.

End Browser.

(* ================================================================== *)
(** * utils/pinterest_api.py: the properties of [APIResponse] *)
(* ================================================================== *)


Module APIResponseProps.
Import PinterestApi.

(** [APIResponse.is_ok]: [200 <= self.status_code < 300]. *)
Definition is_ok (r : APIResponse) : bool :=
  (200 <=? status_code r) && (status_code r <? 300).

(** [APIResponse.is_created]. *)
Definition is_created (r : APIResponse) : bool := status_code r =? 201.

(** [APIResponse.is_not_found]. *)
Definition is_not_found (r : APIResponse) : bool := status_code r =? 404.

End APIResponseProps.

(* ================================================================== *)
(** * Reading URLs *)
(* ================================================================== *)

Module Slashes.

Definition is_slash (c : ascii) : bool := (nat_of_ascii c =? 47)%nat.

Fixpoint all_slashes (s : string) : bool :=
  match s with
  | EmptyString => true
  | String c r => is_slash c && all_slashes r
  end.

Fixpoint ends_with_slash (s : string) : bool :=
  match s with
  | EmptyString => false
  | String c EmptyString => is_slash c
  | String _ r => ends_with_slash r
  end.

End Slashes.

(* ================================================================== *)
(** * More networks and disks *)
(* ================================================================== *)

Module Scenarios2.


Definition image (chunks : list string) : Urllib3.wire_outcome :=
  Urllib3.Answered
    {| Urllib3.status := 200; Urllib3.reason := "OK";
       Urllib3.headers := [("Content-Type", "image/jpeg")];
       Urllib3.body := map Urllib3.Data chunks |}.

(** An image whose transfer breaks after the chunks given. *)
Definition broken_image (chunks : list string) : Urllib3.wire_outcome :=
  Urllib3.Answered
    {| Urllib3.status := 200; Urllib3.reason := "OK";
       Urllib3.headers := [("Content-Type", "image/jpeg")];
       Urllib3.body := map Urllib3.Data chunks
                       ++ [Urllib3.BodyFails Urllib3.BodyProtocolError "IncompleteRead"] |}.

End Scenarios2.

Module Scenarios3.



Definition not_found : Urllib3.HTTPResponse :=
  {| Urllib3.status := 404; Urllib3.reason := "Not Found";
     Urllib3.headers := [];
     Urllib3.body := [] |}.

End Scenarios3.

Module Scenarios4.
Import Browser.

(** A browser on [page] in which the further calls go through; it shows
    [pins] pins and as many images, the [i]-th with the attributes
    [attrs i]. *)
Definition browser (page : BasePage.Page) (pins : Z)
    (attrs : Z -> string -> option string) : XPage :=
  {| base := page;
     page_goto := fun _ => None;
     page_wait_for_timeout := fun _ => None;
     locator_type := fun _ _ _ => None;
     locator_press := fun _ _ => None;
     mouse_wheel := fun _ _ => None;
     locator_count := fun _ _ => Ret pins;
     locator_get_attribute :=
       fun xt l name =>
         Ret (attrs (Z.of_nat (List.length
                                 (filter (fun ev => match ev with
                                                    | GetAttribute _ n => String.eqb n name
                                                    | _ => false
                                                    end) xt))) name) |}.

(** Images whose [srcset] lists three sizes. *)
Definition three_sizes (i : Z) (name : string) : option string :=
  if String.eqb name "srcset"
  then Some ("https://i.pinimg.com/236x/a" ^^ str_of_int i ^^ ".jpg 1x, "
               ^^ "https://i.pinimg.com/474x/a" ^^ str_of_int i ^^ ".jpg 2x, "
               ^^ "https://i.pinimg.com/originals/a" ^^ str_of_int i ^^ ".jpg 4x")
  else Some ("https://i.pinimg.com/236x/a" ^^ str_of_int i ^^ ".jpg").

End Scenarios4.

(* ================================================================== *)
(** * Properties *)
(* ================================================================== *)

(** ** Exceptions and the monad *)

Lemma every_class_is_an_Exception (e : exc) : isinstance e Exception_ = true.
Proof. destruct e as [c s]; destruct c; reflexivity. Qed.

Lemma except_Exception_catches {A} (h : exc -> M A) (e : exc) :
  except_Exception h e = Some (h e).
Proof. unfold except_Exception; now rewrite every_class_is_an_Exception. Qed.

(** Histories are compared with their appends associated to the right. *)
Ltac norm_trace :=
  repeat rewrite <- app_assoc; cbn [List.app]; try reflexivity.

(** Equal lists, up to association of appends and empty tails. *)
Ltac list_eq :=
  cbn; rewrite ?app_nil_r; repeat rewrite <- app_assoc; cbn [List.app];
  reflexivity.

(** Unfolding the statements of the monad. *)
Ltac run :=
  unfold try_except, bind, ret, raise, emit, logger, history, or_raise, lift;
  cbn -[String.append Urllib3.urlopen Urllib3.recursion_limit Json.loads
        Requests.Session_request Requests.HTTPAdapter_send isinstance
        PinterestApi._process_response].

Lemma waited_app (t u : trace) : waited (t ++ u) = waited t ++ waited u.
Proof.
  induction t as [|ev t IH]; simpl; [reflexivity|].
  destruct ev; simpl; now rewrite IH.
Qed.

Lemma screenshots_app (t u : trace) :
  screenshots (t ++ u) = screenshots t ++ screenshots u.
Proof. apply filter_app. Qed.

Lemma attempts_app (t u : trace) : attempts (t ++ u) = (attempts t + attempts u)%nat.
Proof. unfold attempts; now rewrite filter_app, length_app. Qed.

(** ** core/base_page.py *)

Import BasePage.

(** What [take_screenshot] does, whatever the page answers: one call of
    [page.screenshot], then one log record; it never raises. *)
Lemma take_screenshot_run (page : Page) (name : string) (t : trace) :
  let path := "screenshots/" ^^ (name ^^ now page t) ^^ ".png" in
  take_screenshot page name t =
    (Ret tt,
     t ++ [Screenshot path;
           match page_screenshot page path with
           | None => Log INFO [T "📸 Screenshot saved: "; T path]
           | Some e => Log WARNING [T "⚠️ Could not take screenshot: "; T (exc_str e)]
           end]).
Proof.
  cbv zeta. unfold take_screenshot. run.
  destruct (page_screenshot page _) as [e|] eqn:E; run.
  - rewrite except_Exception_catches. run. norm_trace.
  - norm_trace.
Qed.

(** [is_visible_slow], run: one wait, and the answer turned into a
    boolean. *)
Lemma is_visible_slow_run (page : Page) (l : Locator) (timeout : Z) (t : trace) :
  is_visible_slow page l timeout t =
    (Ret (match wait_for_visible page l timeout with
          | None => true
          | Some _ => false
          end),
     t ++ [WaitFor l timeout]).
Proof.
  unfold is_visible_slow. run.
  destruct (wait_for_visible page l timeout) as [e|]; run.
  - now rewrite except_Exception_catches.
  - reflexivity.
Qed.

(** C8. [is_visible_slow] returns a boolean for every locator and
    timeout and never raises: [True] exactly when the wait for
    visibility returns, [False] when it raises, be it the timeout or any
    other error of the wait. *)
Theorem is_visible_slow_returns_bool (page : Page) (l : Locator) (timeout : Z)
    (t : trace) :
  exists b : bool,
    is_visible_slow page l timeout t = (Ret b, t ++ [WaitFor l timeout])
    /\ (b = true <-> wait_for_visible page l timeout = None)
    /\ (b = false <-> exists e, wait_for_visible page l timeout = Some e).
Proof.
  rewrite is_visible_slow_run.
  destruct (wait_for_visible page l timeout) as [e|]; eexists;
    (split; [reflexivity|]); split; split; try discriminate; eauto.
  intros [e H]. discriminate H.
Qed.

(** The timeout swallowed: on a page that shows nothing the check
    answers [False]. *)
Example is_visible_slow_on_timeout :
  is_visible_slow (Scenarios.page_showing Scenarios.nothing Scenarios.nothing)
    (ByLabel "Close") 3000 []
  = (Ret false, [WaitFor (ByLabel "Close") 3000]).
Proof. reflexivity. Qed.


(** A witness of C7's failure case: on a page where the login button is
    detached, [click] raises that very error after one screenshot call. *)
Example click_on_detached_button :
  click (Scenarios.page_showing Scenarios.everything Scenarios.everything)
        (ByCss "#login") "Login Button" [] [] =
    (Raise Scenarios.detached_error,
     [Log INFO [T "🖱️ Clicking on '"; T "Login Button"; T "'"];
      Click (ByCss "#login") [];
      Log ERROR [T "❌ Failed to click '"; T "Login Button"; T "': ";
                 T "Element is not attached to the DOM"];
      Screenshot "screenshots/fail_click_Login Button2025-01-31_09-30-00.png";
      Log INFO [T "📸 Screenshot saved: ";
                T "screenshots/fail_click_Login Button2025-01-31_09-30-00.png"]]).
Proof. reflexivity. Qed.

(** ** pages/home_page.py *)

Import HomePage.

Lemma bind_is_visible_slow {A} (page : Page) (l : Locator)
    (k : bool -> M A) (t : trace) :
  bind (is_visible_slow page l 2000) k t =
    k (becomes_visible page l) (t ++ [WaitFor l 2000]).
Proof.
  unfold bind. rewrite is_visible_slow_run.
  unfold becomes_visible, strategy_timeout.
  now destruct (wait_for_visible page l 2000).
Qed.

(** C4. When some strategy finds a visible search box within its
    timeout, [_get_active_search_box] returns the first such locator in
    the order technical selector, name attribute, placeholder; the
    strategies before it were waited on and found nothing, and none after
    it is waited on. *)
Theorem search_box_is_first_visible_candidate (page : Page) (t : trace)
    (c : Locator) :
  find (becomes_visible page) candidates = Some c ->
  exists before after t',
    candidates = before ++ c :: after
    /\ Forall (fun x => becomes_visible page x = false) before
    /\ becomes_visible page c = true
    /\ _get_active_search_box page t = (Ret c, t')
    /\ waited t' = waited t ++ before ++ [c]
    /\ screenshots t' = screenshots t.
Proof.
  unfold candidates, find, _get_active_search_box.
  rewrite bind_is_visible_slow.
  destruct (becomes_visible page box_technical) eqn:V0.
  { intros [= <-]. exists [], [box_by_name; box_label]. eexists.
    split; [reflexivity|]. split; [constructor|]. split; [assumption|].
    split; [reflexivity|]. split.
    - rewrite waited_app. list_eq.
    - rewrite !screenshots_app. list_eq. }
  rewrite bind_is_visible_slow.
  destruct (becomes_visible page box_by_name) eqn:V1.
  { intros [= <-]. exists [box_technical], [box_label]. eexists.
    split; [reflexivity|]. split; [repeat constructor; assumption|].
    split; [assumption|]. split; [run; reflexivity|]. split.
    - rewrite !waited_app. list_eq.
    - rewrite !screenshots_app. list_eq. }
  rewrite bind_is_visible_slow.
  destruct (becomes_visible page box_label) eqn:V2; [|discriminate].
  intros [= <-]. exists [box_technical; box_by_name], []. eexists.
  split; [reflexivity|]. split; [repeat constructor; assumption|].
  split; [assumption|]. split; [run; reflexivity|]. split.
  - rewrite !waited_app. list_eq.
  - rewrite !screenshots_app. list_eq.
Qed.

(** The theorem at the claim's first example: the technical selector
    hidden, the name attribute visible. *)
Lemma search_box_fallback_witness :
  let page := Scenarios.page_showing (Scenarios.only box_by_name) Scenarios.nothing in
  find (becomes_visible page) candidates = Some box_by_name
  /\ exists before after t',
       candidates = before ++ box_by_name :: after
       /\ Forall (fun x => becomes_visible page x = false) before
       /\ becomes_visible page box_by_name = true
       /\ _get_active_search_box page [] = (Ret box_by_name, t')
       /\ waited t' = waited [] ++ before ++ [box_by_name]
       /\ screenshots t' = screenshots [].
Proof.
  cbv zeta. split; [reflexivity|].
  apply (search_box_is_first_visible_candidate
           (Scenarios.page_showing (Scenarios.only box_by_name) Scenarios.nothing)
           [] box_by_name).
  reflexivity.
Defined.

(** The claim's first example, run: the name attribute's locator comes
    back after two waits and a warning; the placeholder is never tried. *)
Example search_box_fallback_to_name :
  _get_active_search_box
    (Scenarios.page_showing (Scenarios.only box_by_name) Scenarios.nothing) []
    = (Ret box_by_name,
       [WaitFor box_technical 2000; WaitFor box_by_name 2000;
        Log WARNING [T "⚠️ Primary selector failed. Using name attribute fallback."]]).
Proof. reflexivity. Qed.

(** The claim's second example: with every strategy visible the
    technical selector wins and is the only one waited on. *)
Example search_box_prefers_technical :
  _get_active_search_box
    (Scenarios.page_showing Scenarios.everything Scenarios.nothing) []
    = (Ret box_technical, [WaitFor box_technical 2000]).
Proof. reflexivity. Qed.




(** ** config/settings.py *)

Section TimeoutFacts.
Import Settings.

Variable rng : Type.
Variable next : rng -> Z * rng.

Lemma randint_in_range (a b : Z) (g : rng) :
  a <= b -> a <= fst (randint rng next a b g) <= b.
Proof.
  intros Hab. unfold randint. destruct (next g) as [r g']. cbn.
  pose proof (Z.mod_pos_bound r (b - a + 1)). lia.
Qed.

Lemma TimeoutConfig_init_no_args (cls : TimeoutConfig) :
  TimeoutConfig_init cls no_args = cls.
Proof. now destruct cls. Qed.

(** The class as the import leaves it: the fixed fields, and the three
    drawn ones inside their [randint] bounds. *)
Lemma class_after_import (g : rng) :
  let cls := p_class rng (import_settings rng next g) in
  DEFAULT_TIMEOUT cls = 30000 /\ LONG_TIMEOUT cls = 60000
  /\ PAGE_LOAD_TIMEOUT cls = 45000 /\ ELEMENT_TIMEOUT cls = 10000
  /\ in_range 300 500 (TYPING_TIMEOUT cls)
  /\ in_range 1000 3000 (SHORT13_TIMEOUT cls)
  /\ in_range 2000 4000 (SHORT24_TIMEOUT cls).
Proof.
  cbv zeta. unfold import_settings, TimeoutConfig_class, in_range.
  pose proof (randint_in_range 300 500 g ltac:(lia)) as H1.
  destruct (randint rng next 300 500 g) as [typing g1].
  pose proof (randint_in_range 1000 3000 g1 ltac:(lia)) as H2.
  destruct (randint rng next 1000 3000 g1) as [short13 g2].
  pose proof (randint_in_range 2000 4000 g2 ltac:(lia)) as H3.
  destruct (randint rng next 2000 4000 g2) as [short24 g3].
  cbn in *. repeat split; lia.
Qed.

(** No step touches the class or the singleton, and every instance made
    is a copy of the class defaults. *)
Lemma step_keeps_class (p : process rng) (o : op) :
  p_class rng (step rng next p o) = p_class rng p
  /\ p_settings_timeouts rng (step rng next p o) = p_settings_timeouts rng p
  /\ (Forall (eq (p_class rng p)) (p_instances rng p) ->
      Forall (eq (p_class rng p)) (p_instances rng (step rng next p o))).
Proof.
  destruct o; cbn; repeat split; auto.
  all: intros H; apply Forall_app; split; [exact H|];
    constructor; [now rewrite TimeoutConfig_init_no_args | constructor].
Qed.

Lemma run_ops_keeps_class (ops : list op) (p : process rng) :
  Forall (eq (p_class rng p)) (p_instances rng p) ->
  p_class rng (run_ops rng next ops p) = p_class rng p
  /\ p_settings_timeouts rng (run_ops rng next ops p) = p_settings_timeouts rng p
  /\ Forall (eq (p_class rng p)) (p_instances rng (run_ops rng next ops p)).
Proof.
  revert p. induction ops as [|o ops IH]; intros p Hp.
  - cbn. auto.
  - change (run_ops rng next (o :: ops) p)
      with (run_ops rng next ops (step rng next p o)).
    destruct (step_keeps_class p o) as (Hc & Hs & Hi).
    destruct (IH (step rng next p o)) as (Hc' & Hs' & Hi').
    + rewrite Hc. auto.
    + rewrite Hc', Hs', Hc, Hs. rewrite Hc in Hi'. auto.
Qed.

(** C9. In a process that has imported [config.settings], whatever else
    it does afterwards (importing the module again, building more
    [TimeoutConfig()] or [Settings()] objects, trying to assign to a
    field, drawing other random numbers), every [TimeoutConfig] alive
    holds the values the class got at import: each of the seven fields is
    between 300 and 60000 ms, the typing delay within 300..500, the two
    short waits within 1000..3000 and 2000..4000. *)
Theorem timeouts_drawn_once_and_bounded (g : rng) (ops : list op) :
  let p0 := import_settings rng next g in
  let p := run_ops rng next ops p0 in
  Forall (fun c : TimeoutConfig =>
            c = p_class rng p0
            /\ (forall f : field, in_range 300 60000 (getattr c f))
            /\ in_range 300 500 (TYPING_TIMEOUT c)
            /\ in_range 1000 3000 (SHORT13_TIMEOUT c)
            /\ in_range 2000 4000 (SHORT24_TIMEOUT c))
         (live rng p)
  /\ p_class rng p = p_class rng p0.
Proof.
  cbv zeta.
  pose proof (class_after_import g) as Hcls. cbv zeta in Hcls.
  destruct (run_ops_keeps_class ops (import_settings rng next g)) as (Hc & Hs & Hi).
  { unfold import_settings. destruct (TimeoutConfig_class rng next g). constructor. }
  split; [|exact Hc].
  assert (Hgood : forall c, c = p_class rng (import_settings rng next g) ->
            c = p_class rng (import_settings rng next g)
            /\ (forall f : field, in_range 300 60000 (getattr c f))
            /\ in_range 300 500 (TYPING_TIMEOUT c)
            /\ in_range 1000 3000 (SHORT13_TIMEOUT c)
            /\ in_range 2000 4000 (SHORT24_TIMEOUT c)).
  { intros c ->. destruct Hcls as (H1 & H2 & H3 & H4 & H5 & H6 & H7).
    split; [reflexivity|]. split; [|auto].
    unfold in_range in *. intros f; destruct f; cbn; lia. }
  unfold live. constructor.
  - apply Hgood. rewrite Hs. unfold import_settings.
    destruct (TimeoutConfig_class rng next g). cbn.
    apply TimeoutConfig_init_no_args.
  - eapply Forall_impl; [|exact Hi]. intros c Hcc. apply Hgood. now symmetry.
Qed.

End TimeoutFacts.

(** ** requests and urllib3 *)

Import Urllib3 Requests.

Lemma str_truthy_append_r (a b : string) :
  str_truthy b = true -> str_truthy (a ^^ b) = true.
Proof. destruct a; cbn; auto. Qed.

Lemma str_truthy_nonempty (s : string) : str_truthy s = true <-> s <> EmptyString.
Proof.
  unfold str_truthy. destruct (String.eqb_spec s EmptyString); cbn; split;
    congruence.
Qed.

Lemma append_nonempty_r (a b : string) : b <> EmptyString -> a ^^ b <> EmptyString.
Proof.
  intros Hb. apply str_truthy_nonempty, str_truthy_append_r.
  now apply str_truthy_nonempty.
Qed.

(** [Response.ok] is false exactly on the client and server errors. *)
Lemma ok_iff (r : Response) :
  ok r = true <-> ~ (400 <= Requests.status_code r < 600).
Proof.
  unfold ok, raise_for_status, http_error_msg.
  destruct (400 <=? Requests.status_code r) eqn:A;
  destruct (Requests.status_code r <? 500) eqn:B;
  destruct (500 <=? Requests.status_code r) eqn:C;
  destruct (Requests.status_code r <? 600) eqn:D; cbn [andb];
  try rewrite str_truthy_append_r by reflexivity;
  cbn; split; try congruence; try lia; intros H; try reflexivity;
  exfalso; apply H; lia.
Qed.


Lemma with_total_retryable (r : Retry) (n : Z) (m : string) :
  _is_method_retryable (with_total r n) m = _is_method_retryable r m.
Proof. reflexivity. Qed.

Lemma attempts_all (evs : list event) :
  Forall (fun ev => is_attempt ev = true) evs -> attempts evs = List.length evs.
Proof.
  unfold attempts. induction 1 as [|ev evs H _ IH]; cbn; [reflexivity|].
  rewrite H. cbn. now rewrite IH.
Qed.

(** [urlopen] under a [Retry] whose [total] is below the recursion
    limit: it returns (a response or an exception of urllib3), after at
    least one attempt and at most [total + 1]; it re-raises a raw error
    only for a method that may not be retried. *)
Lemma urlopen_returns (net : Network) (m u : string) :
  forall (depth : nat) (r : Retry) (t : trace),
    (Z.to_nat (total r) < depth)%nat ->
    exists x evs,
      urlopen net depth m u r t = (Ret x, t ++ evs)
      /\ Forall (fun ev => is_attempt ev = true) evs
      /\ (1 <= List.length evs <= Z.to_nat (total r) + 1)%nat
      /\ (forall e, x = inr (Reraised e) -> _is_method_retryable r m = false)
      /\ (forall u' c, x = inr (MaxRetryError u' c) -> u' = u).
Proof.
  induction depth as [|d IH]; intros r t Hd; [lia|].
  assert (Hnext : is_exhausted (with_total r (total r - 1)) = false ->
                  (Z.to_nat (total (with_total r (total r - 1))) < d)%nat
                  /\ (Z.to_nat (total (with_total r (total r - 1))) + 1
                      <= Z.to_nat (total r))%nat).
  { unfold is_exhausted. cbn [total with_total].
    destruct (total r - 1 =? 0) eqn:Z0; [lia|].
    destruct (total r - 1 <? 0) eqn:Z1; [discriminate|]. lia. }
  assert (Hone : forall x : HTTPResponse + exception,
            (forall e, x = inr (Reraised e) -> _is_method_retryable r m = false) ->
            (forall u' c, x = inr (MaxRetryError u' c) -> u' = u) ->
            exists (x' : HTTPResponse + exception) evs,
              (Ret x, (t ++ [HttpAttempt m u])) = (Ret x', t ++ evs)
              /\ Forall (fun ev => is_attempt ev = true) evs
              /\ (1 <= List.length evs <= Z.to_nat (total r) + 1)%nat
              /\ (forall e, x' = inr (Reraised e) -> _is_method_retryable r m = false)
              /\ (forall u' c, x' = inr (MaxRetryError u' c) -> u' = u)).
  { intros x Hx Hu. exists x, [HttpAttempt m u].
    repeat split; auto; cbn; lia. }
  assert (Hrec : is_exhausted (with_total r (total r - 1)) = false ->
            exists x evs,
              urlopen net d m u (with_total r (total r - 1)) (t ++ [HttpAttempt m u])
                = (Ret x, t ++ evs)
              /\ Forall (fun ev => is_attempt ev = true) evs
              /\ (1 <= List.length evs <= Z.to_nat (total r) + 1)%nat
              /\ (forall e, x = inr (Reraised e) -> _is_method_retryable r m = false)
              /\ (forall u' c, x = inr (MaxRetryError u' c) -> u' = u)).
  { intros Hex. destruct (Hnext Hex) as [Hlt Hle].
    destruct (IH (with_total r (total r - 1)) (t ++ [HttpAttempt m u]) Hlt)
      as (x & evs & Hrun & Hall & Hlen & Hre & Hu).
    exists x, (HttpAttempt m u :: evs). rewrite Hrun.
    split; [now rewrite <- app_assoc|].
    split; [constructor; auto|]. split; [cbn; lia|]. split; assumption. }
  cbn [urlopen]. run.
  destruct (server net (attempts t) m u) as [resp|e].
  - destruct (is_retry r m (status resp) (has_retry_after resp)); [|apply Hone; discriminate].
    unfold increment.
    destruct (is_exhausted (with_total r (total r - 1))) eqn:Hex.
    + destruct (raise_on_status r); apply Hone; try discriminate.
      intros u' c [= <- _]. reflexivity.
    + now apply Hrec.
  - unfold increment.
    destruct (_is_read_error e && negb (_is_method_retryable r m)) eqn:Hre.
    + apply Hone; [|discriminate]. intros e' _.
      apply andb_prop in Hre as [_ Hre]. now apply negb_true_iff in Hre.
    + destruct (is_exhausted (with_total r (total r - 1))) eqn:Hex.
      * apply Hone; [discriminate|]. intros u' c [= <- _]. reflexivity.
      * now apply Hrec.
Qed.

Lemma adapter_exception_is_reported (u : string) (c : cause) :
  isinstance (adapter_exception (MaxRetryError u c)) RequestException = true
  /\ exc_str (adapter_exception (MaxRetryError u c)) <> EmptyString.
Proof.
  destruct c as [txt|[k dt]]; [|destruct k]; split;
    solve [reflexivity | cbn; discriminate].
Qed.

Lemma body_exception_is_reported (k : body_error_kind) (dt : string) :
  isinstance (body_exception k dt) RequestException = true
  /\ (isinstance (body_exception k dt) ConnectionError = true
      \/ exc_str (body_exception k dt) <> EmptyString).
Proof.
  destruct k; split; try reflexivity.
  - right. cbn. discriminate.
  - right. cbn. discriminate.
  - left. reflexivity.
  - left. reflexivity.
Qed.

Lemma first_failure_is_body_exception (b : list body_item) (e : exc) :
  first_failure b = Some e -> exists k dt, e = body_exception k dt.
Proof.
  induction b as [|[c|k dt] b IH]; cbn; intros H.
  - discriminate.
  - auto.
  - injection H as <-. eauto.
Qed.

(** [Session.request] on a policy below the recursion limit and a method
    it may retry: one to [total + 1] attempts, then a response, or an
    exception of [requests] that either is a [ConnectionError] or has a
    text. *)
Lemma session_request_outcome (s : Session) (m u : string) (a : request_args)
    (t : trace) :
  (Z.to_nat (total (max_retries s)) < recursion_limit)%nat ->
  _is_method_retryable (max_retries s) m = true ->
  exists res evs,
    Session_request s m u a t = (res, t ++ evs)
    /\ Forall (fun ev => is_attempt ev = true) evs
    /\ (1 <= List.length evs <= Z.to_nat (total (max_retries s)) + 1)%nat
    /\ match res with
       | Ret resp => Requests.url resp = u
       | Raise e =>
           isinstance e RequestException = true
           /\ (isinstance e ConnectionError = true \/ exc_str e <> EmptyString)
       end.
Proof.
  intros Hlim Hm. unfold Session_request, HTTPAdapter_send, bind.
  destruct (urlopen_returns (network s) m u recursion_limit (max_retries s) t Hlim)
    as (x & evs & Hrun & Hall & Hlen & Hre & Hu).
  rewrite Hrun.
  destruct x as [resp|[u' c|e]].
  - unfold ret.
    destruct (arg_stream a).
    + exists (Ret (build_response u resp)), evs. auto.
    + destruct (first_failure (raw (build_response u resp))) as [e|] eqn:F.
      * exists (Raise e), evs. unfold raise. repeat split; auto; try apply Hlen.
        all: destruct (first_failure_is_body_exception _ _ F) as (k & dt & ->);
          apply body_exception_is_reported.
      * exists (Ret (build_response u resp)), evs. auto.
  - rewrite (Hu u' c eq_refl). unfold raise.
    exists (Raise (adapter_exception (MaxRetryError u c))), evs.
    destruct (adapter_exception_is_reported u c). auto 6.
  - rewrite (Hre e eq_refl) in Hm. discriminate.
Qed.

(** ** utils/pinterest_api.py *)

Import PinterestApi.

(** [_process_response], run: the body decided as the code decides it,
    one debug record, and the wrapper built from the response. *)
Lemma process_response_run (response : Response) (t : trace) :
  _process_response response t =
    (Ret {| status_code := Requests.status_code response;
            data := if str_truthy (text response) then
                      match Json.loads (text response) with
                      | Some v => v
                      | None => VDict [("raw_text",
                                        VStr (substring 0 500 (text response)))]
                      end
                    else VDict [];
            success := ok response;
            error_message := if ok response then EmptyString else reason response;
            headers := Requests.headers response |},
     t ++ [Log DEBUG [T "   "; T (if ok response then "✅" else "⚠️");
                      T " Status: ";
                      T (str_of_int (Requests.status_code response))]]).
Proof.
  unfold _process_response, json. run.
  destruct (str_truthy (text response)); run; [|reflexivity].
  destruct (Json.loads (text response)); run; reflexivity.
Qed.

(** [_make_request], run: the debug records, the session call, then
    either the wrapped response or the [except] clause that matches. *)
Lemma make_request_run (tc : Settings.TimeoutConfig) (self : BaseAPIClient)
    (method : HTTPMethod) (endpoint : string)
    (d j p : option Py.value) (t : trace) :
  let u := _base_url self ^^ endpoint in
  let t0 := t ++ Log DEBUG [T "📡 ["; T (value method); T "] "; T u]
              :: (if opt_truthy j
                  then [Log DEBUG [T "   Payload: ";
                                   V (match j with Some v => v | None => VNone end)]]
                  else []) in
  _make_request tc self method endpoint d j p t =
    match Session_request (_session self) (value method) u
            {| arg_data := d; arg_json := j; arg_params := p;
               arg_stream := false;
               arg_timeout := (inject_Z (Settings.DEFAULT_TIMEOUT tc) / 1000)%Q |}
            t0 with
    | (Ret response, t1) => _process_response response t1
    | (Raise e, t1) =>
        if isinstance e Timeout then
          (Ret (APIResponse_failure 408 "Request timed out"),
           t1 ++ [Log ERROR [T "⏱️ [API] Timeout: "; T u]])
        else if isinstance e ConnectionError then
          (Ret (APIResponse_failure 503 ("Connection failed: " ^^ exc_str e)),
           t1 ++ [Log ERROR [T "❌ [API] Connection Error: "; T (exc_str e)]])
        else if isinstance e RequestException then
          (Ret (APIResponse_failure 500 (exc_str e)),
           t1 ++ [Log ERROR [T "❌ [API] Request Error: "; T (exc_str e)]])
        else (Raise e, t1)
    end.
Proof.
  cbv zeta. unfold _make_request. run.
  destruct (opt_truthy j); run.
  all: repeat rewrite <- app_assoc; cbn [List.app].
  all: destruct (Session_request _ _ _ _ _) as [[response|e] t1];
    [now rewrite process_response_run|].
  all: destruct (isinstance e Timeout); [reflexivity|].
  all: destruct (isinstance e ConnectionError); [reflexivity|].
  all: destruct (isinstance e RequestException); reflexivity.
Qed.



(** C1, as the code has it.  Every [APIResponse] that [_make_request]
    returns, from a real response or from an [except] clause, has
    [success] true exactly when its status code is outside 400..599: a
    real response takes [Response.ok], and the three synthetic ones carry
    408, 503 or 500 with [success] false. *)
Theorem success_iff_not_an_error_status (tc : Settings.TimeoutConfig)
    (self : BaseAPIClient) (method : HTTPMethod) (endpoint : string)
    (d j p : option Py.value) (t t' : trace) (r : APIResponse) :
  _make_request tc self method endpoint d j p t = (Ret r, t') ->
  (success r = true <-> ~ (400 <= status_code r < 600))
  /\ (is_ok r = true -> success r = true)
  /\ (status_code r = 408 -> success r = false).
Proof.
  rewrite make_request_run. cbv zeta.
  destruct (Session_request _ _ _ _ _) as [[response|e] t1].
  - rewrite process_response_run. intros [= <- _]. cbn [success status_code].
    pose proof (ok_iff response) as Hok. unfold is_ok. cbn [status_code].
    split; [exact Hok|]. split.
    + intros H. apply Hok. apply andb_prop in H as [H1 H2]. lia.
    + intros H. destruct (ok response); [|reflexivity].
      exfalso. apply (proj1 Hok eq_refl). lia.
  - destruct (isinstance e Timeout);
      [|destruct (isinstance e ConnectionError);
        [|destruct (isinstance e RequestException)]];
      intros [= <- _]; cbn; (split; [split; [discriminate | intros H; exfalso; apply H; lia]
                                    | split; [discriminate | reflexivity]]).
Qed.

(** The theorem at a server that always answers 304 Not Modified. *)
Lemma success_witness_not_modified :
  let r := {| status_code := 304; data := VDict []; success := true;
              error_message := EmptyString;
              headers := [("Content-Type", "application/json")] |} in
  let t' := [Log DEBUG [T "📡 ["; T "GET"; T "] "; T "https://api.example.com/posts/1"];
             HttpAttempt "GET" "https://api.example.com/posts/1";
             Log DEBUG [T "   "; T "✅"; T " Status: "; T "304"]] in
  _make_request Scenarios.timeouts0
    (new_client Scenarios.not_modified "https://api.example.com/")
    GET "/posts/1" None None None [] = (Ret r, t')
  /\ (success r = true <-> ~ (400 <= status_code r < 600))
  /\ (is_ok r = true -> success r = true)
  /\ (status_code r = 408 -> success r = false).
Proof.
  cbv zeta. split; [vm_compute; reflexivity|].
  apply (success_iff_not_an_error_status Scenarios.timeouts0
           (new_client Scenarios.not_modified "https://api.example.com/")
           GET "/posts/1" None None None []
           [Log DEBUG [T "📡 ["; T "GET"; T "] "; T "https://api.example.com/posts/1"];
            HttpAttempt "GET" "https://api.example.com/posts/1";
            Log DEBUG [T "   "; T "✅"; T " Status: "; T "304"]]).
  vm_compute. reflexivity.
Defined.

(** C1 as stated fails on a real response outside 200..299 that is not
    an error either: for 304 Not Modified the client returns [success]
    true although [200 <= 304 < 300] is false. *)
Lemma success_true_outside_2xx :
  exists r t',
    _make_request Scenarios.timeouts0
      (new_client Scenarios.not_modified "https://api.example.com/")
      GET "/posts/1" None None None [] = (Ret r, t')
    /\ status_code r = 304
    /\ success r = true
    /\ ~ (200 <= status_code r < 300)
    /\ is_ok r = false.
Proof.
  do 2 eexists. split; [vm_compute; reflexivity|].
  cbn. repeat split; try reflexivity. lia.
Qed.

(** The policy [_create_session] mounts: three retries, far below the
    recursion limit, and every method of [HTTPMethod] may be retried. *)
Lemma client_policy_below_limit (net : Network) (base_url : string) :
  (Z.to_nat (total (max_retries (_session (new_client net base_url))))
   < recursion_limit)%nat.
Proof. apply Nat.ltb_lt. vm_compute. reflexivity. Qed.

Lemma client_methods_retryable (net : Network) (base_url : string)
    (method : HTTPMethod) :
  _is_method_retryable (max_retries (_session (new_client net base_url)))
    (value method) = true.
Proof. destruct method; reflexivity. Qed.


(** The three synthetic responses, each reached.  A connection that
    cannot be set up in time ends as [ConnectTimeout], a [Timeout]: 408.
    A refused connection ends as [ConnectionError]: 503.  So does a
    response that never comes: once the retries are used up the adapter
    raises [ConnectionError] for a [ReadTimeoutError] too.  A body cut
    short ends as [ChunkedEncodingError]: 500. *)
Example connect_timeout_gives_408 :
  fst (_make_request Scenarios.timeouts0
         (new_client (Scenarios.failing ConnectTimeoutError "timed out")
                     "https://api.example.com")
         GET "/posts/1" None None None [])
  = Ret (APIResponse_failure 408 "Request timed out").
Proof. vm_compute. reflexivity. Qed.

Example refused_connection_gives_503 :
  exists msg,
    fst (_make_request Scenarios.timeouts0
           (new_client (Scenarios.failing NewConnectionError "Connection refused")
                       "https://api.example.com")
           POST "/posts" None (Some (VDict [("title", VStr "x")])) None [])
    = Ret (APIResponse_failure 503 msg)
    /\ prefix_of "Connection failed: " msg = true.
Proof. eexists. split; [vm_compute; reflexivity | reflexivity]. Qed.

Example read_timeout_gives_503 :
  exists msg,
    fst (_make_request Scenarios.timeouts0
           (new_client (Scenarios.failing ReadTimeoutError "Read timed out.")
                       "https://api.example.com")
           GET "/posts/1" None None None [])
    = Ret (APIResponse_failure 503 msg)
    /\ prefix_of "Connection failed: " msg = true
    /\ mentions "ReadTimeoutError" msg = true.
Proof. eexists. split; [vm_compute; reflexivity | split; reflexivity]. Qed.

Example broken_body_gives_500 :
  exists msg,
    fst (_make_request Scenarios.timeouts0
           (new_client
              (Scenarios.always
                 (Answered (mkHTTPResponse 200 "OK" []
                              [Data "{"; BodyFails BodyProtocolError "IncompleteRead"])))
              "https://api.example.com")
           GET "/posts/1" None None None [])
    = Ret (APIResponse_failure 500 msg)
    /\ msg <> EmptyString.
Proof. eexists. split; [vm_compute; reflexivity | discriminate]. Qed.

(** The spec's scenario: a healthy backend answers 200 with a JSON
    object, and 404 for a post that does not exist; neither raises. *)
Example healthy_backend_200 :
  fst (_make_request Scenarios.timeouts0
         (new_client (Scenarios.always (Scenarios.answer 200 "OK" "{}"))
                     "https://jsonplaceholder.typicode.com")
         GET "/posts/1" None None None [])
  = Ret {| status_code := 200; data := VDict []; success := true;
           error_message := EmptyString;
           headers := [("Content-Type", "application/json")] |}.
Proof. vm_compute. reflexivity. Qed.

Example missing_post_404 :
  fst (_make_request Scenarios.timeouts0
         (new_client (Scenarios.always (Scenarios.answer 404 "Not Found" "{}"))
                     "https://jsonplaceholder.typicode.com")
         GET "/posts/99999" None None None [])
  = Ret {| status_code := 404; data := VDict []; success := false;
           error_message := "Not Found";
           headers := [("Content-Type", "application/json")] |}.
Proof. vm_compute. reflexivity. Qed.

(** A server that keeps answering 503 is asked [total + 1] times, and
    then [urlopen] raises [MaxRetryError] (the policy has
    [raise_on_status] set). *)
Lemma urlopen_persistent_503 (net : Network) (m u : string) :
  (forall n, exists resp, server net n m u = Answered resp /\ status resp = 503) ->
  forall (depth : nat) (r : Retry) (t : trace),
    mem_Z 503 (status_forcelist r) = true ->
    _is_method_retryable r m = true ->
    raise_on_status r = true ->
    0 <= total r ->
    (Z.to_nat (total r) < depth)%nat ->
    urlopen net depth m u r t =
      (Ret (inr (MaxRetryError u (ResponseError "too many 503 error responses"))),
       t ++ repeat (HttpAttempt m u) (S (Z.to_nat (total r)))).
Proof.
  intros Hsrv. induction depth as [|dp IH]; intros r t Hf Hm Hr H0 Hd; [lia|].
  cbn [urlopen]. run.
  destruct (Hsrv (attempts t)) as (resp & -> & Hs).
  unfold is_retry. rewrite Hm, Hs, Hf. cbn [negb].
  unfold increment. cbn [andb].
  change (503 =? 0) with false. cbv iota.
  change ("too many " ^^ str_of_int 503 ^^ " error responses")
    with "too many 503 error responses".
  unfold is_exhausted. cbn [total with_total].
  destruct (total r - 1 =? 0) eqn:Z0.
  - rewrite IH; cbn [total with_total status_forcelist raise_on_status]; auto; try lia.
    replace (Z.to_nat (total r)) with 1%nat by lia.
    replace (Z.to_nat (total r - 1)) with 0%nat by lia.
    now rewrite <- app_assoc.
  - destruct (total r - 1 <? 0) eqn:Z1.
    + rewrite Hr. replace (Z.to_nat (total r)) with 0%nat by lia. reflexivity.
    + rewrite IH; cbn [total with_total status_forcelist raise_on_status]; auto; try lia.
      assert (Hn : Z.to_nat (total r) = S (Z.to_nat (total r - 1))) by lia.
      rewrite Hn. now rewrite <- app_assoc.
Qed.

Lemma attempts_repeat (m u : string) (n : nat) :
  attempts (repeat (HttpAttempt m u) n) = n.
Proof. induction n as [|n IH]; cbn; [reflexivity|]. now f_equal. Qed.

(** The same seen from the session of a client: the call raises
    [RetryError] after four attempts. *)
Lemma session_request_persistent_503 (net : Network) (base_url : string)
    (method : HTTPMethod) (u : string) (a : request_args) (t : trace) :
  (forall n m u', exists resp, server net n m u' = Answered resp /\ status resp = 503) ->
  Session_request (_session (new_client net base_url)) (value method) u a t =
    (Raise (mkExc RetryError
              (max_retry_text u (ResponseError "too many 503 error responses"))),
     t ++ repeat (HttpAttempt (value method) u) 4).
Proof.
  intros Hsrv. unfold Session_request, HTTPAdapter_send, bind.
  rewrite (urlopen_persistent_503 net (value method) u (fun n => Hsrv n _ _));
    try reflexivity.
  - apply client_methods_retryable.
  - cbv. discriminate.
  - apply client_policy_below_limit.
Qed.

Lemma mentions_append_l (needle a b : string) :
  mentions needle b = true -> mentions needle (a ^^ b) = true.
Proof.
  intros H. induction a as [|c a IH]; cbn; [exact H|].
  rewrite IH. apply orb_true_r.
Qed.

(** C2, as the code has it.  Against a server that answers 503 to every
    attempt, one call of [_make_request] makes exactly four attempts (the
    first and [MAX_RETRIES] retries) and returns one [APIResponse]: not
    the server's 503 but the synthetic 500 of the generic [except]
    clause, whose message is the text of the [RetryError] ("too many 503
    error responses"). *)
Theorem persistent_503_exhausts_retries (tc : Settings.TimeoutConfig)
    (net : Network) (base_url : string) (method : HTTPMethod)
    (endpoint : string) (d j p : option Py.value) (t : trace) :
  (forall n m u, exists resp, server net n m u = Answered resp /\ status resp = 503) ->
  exists msg t',
    _make_request tc (new_client net base_url) method endpoint d j p t =
      (Ret {| status_code := 500; data := VNone; success := false;
              error_message := msg; headers := [] |}, t')
    /\ mentions "too many 503 error responses" msg = true
    /\ attempts t' = (attempts t + Z.to_nat (1 + MAX_RETRIES))%nat.
Proof.
  intros Hsrv. rewrite make_request_run. cbv zeta.
  rewrite (session_request_persistent_503 net base_url method _ _ _ Hsrv).
  change (isinstance (mkExc RetryError ?x) Timeout) with false.
  change (isinstance (mkExc RetryError ?x) ConnectionError) with false.
  change (isinstance (mkExc RetryError ?x) RequestException) with true.
  cbv iota.
  do 2 eexists. split; [reflexivity|]. split.
  - cbn [exc_str]. unfold max_retry_text.
    do 2 apply mentions_append_l. reflexivity.
  - rewrite !attempts_app, attempts_repeat.
    change (Z.to_nat (1 + MAX_RETRIES)) with 4%nat.
    destruct (opt_truthy j); cbn; lia.
Qed.

(** The theorem at the server of [Scenarios.unavailable]. *)
Lemma persistent_503_witness :
  (forall n m u, exists resp,
      server Scenarios.unavailable n m u = Answered resp /\ status resp = 503)
  /\ exists msg t',
       _make_request Scenarios.timeouts0
         (new_client Scenarios.unavailable "https://api.example.com/")
         GET "/posts/1" None None None [] =
         (Ret {| status_code := 500; data := VNone; success := false;
                 error_message := msg; headers := [] |}, t')
       /\ mentions "too many 503 error responses" msg = true
       /\ attempts t' = (attempts [] + Z.to_nat (1 + MAX_RETRIES))%nat.
Proof.
  split.
  - intros n m u. eexists. split; reflexivity.
  - apply (persistent_503_exhausts_retries Scenarios.timeouts0
             Scenarios.unavailable "https://api.example.com/" GET "/posts/1"
             None None None []).
    intros n m u. eexists. split; reflexivity.
Defined.

(** C2 as stated fails on what the caller receives: after the four
    attempts against a server that always answers 503, the returned
    [APIResponse] has status code 500, not 503. *)
Lemma persistent_503_is_returned_as_500 :
  exists r t',
    _make_request Scenarios.timeouts0
      (new_client Scenarios.unavailable "https://api.example.com/")
      GET "/posts/1" None None None [] = (Ret r, t')
    /\ attempts t' = 4%nat
    /\ status_code r = 500
    /\ status_code r <> 503.
Proof.
  do 2 eexists. split; [vm_compute; reflexivity|].
  repeat split. cbn. discriminate.
Qed.

Lemma file_write_run (disk : Disk) (path chunk : string) (t : trace) :
  file_write disk path chunk t =
    (match fs_write disk path chunk with
     | None => Ret tt
     | Some e => Raise e
     end, t ++ [FileWrite path chunk]).
Proof. unfold file_write. run. now destruct (fs_write disk path chunk). Qed.

(** The loop over the body writes and makes no request. *)
Lemma for_iter_content_writes (disk : Disk) (path : string) :
  forall (b : list body_item) (t : trace),
  exists res evs,
    for_iter_content b (file_write disk path) t = (res, t ++ evs)
    /\ attempts evs = 0%nat.
Proof.
  induction b as [|[c|k dt] b IH]; intros t.
  - exists (Ret tt), []. split; [run; now rewrite app_nil_r | reflexivity].
  - cbn [for_iter_content]. unfold bind. rewrite file_write_run.
    destruct (fs_write disk path c) as [e|].
    + exists (Raise e), [FileWrite path c]. split; reflexivity.
    + destruct (IH (t ++ [FileWrite path c])) as (res & evs & Hrun & Hatt).
      rewrite Hrun. exists res, (FileWrite path c :: evs).
      split; [now rewrite <- app_assoc | exact Hatt].
  - exists (Raise (body_exception k dt)), [].
    split; [run; now rewrite app_nil_r | reflexivity].
Qed.

(** C6, as the code has it.  On a client built by [new_client],
    [download_file] returns a boolean for every URL, path, network and
    disk, and never raises: [True] after the record "Downloaded", [False]
    after an error record "Download failed for <url>".  Its request goes
    through the session's retrying adapter like any other: against a
    server that answers 503 to every attempt, one call makes four
    attempts (the first and [MAX_RETRIES] retries) and returns [False]. *)
Theorem download_file_returns_bool (net : Network) (base_url : string)
    (disk : Disk) (u save_path : string) (t : trace) :
  exists b before final,
    download_file (new_client net base_url) disk u save_path t
      = (Ret b, t ++ before ++ [final])
    /\ ((b = true
         /\ final = Log INFO [T "⬇️ Downloaded: "; T (path_name save_path)])
        \/ (b = false
            /\ exists msg,
                 final = Log ERROR [T "❌ Download failed for "; T u; T ": "; T msg]))
    /\ ((forall n m u', exists resp,
            server net n m u' = Answered resp /\ status resp = 503) ->
        b = false /\ attempts before = Z.to_nat (1 + MAX_RETRIES)).
Proof.
  unfold download_file, try_except.
  destruct (session_request_outcome (_session (new_client net base_url)) "GET" u
              {| arg_data := None; arg_json := None; arg_params := None;
                 arg_stream := true; arg_timeout := 30%Q |} t
              (client_policy_below_limit net base_url) eq_refl)
    as (res & evs & Hrun & _ & _ & _).
  assert (Hpers : (forall n m u', exists resp,
                      server net n m u' = Answered resp /\ status resp = 503) ->
                  (exists e, res = Raise e)
                  /\ attempts evs = Z.to_nat (1 + MAX_RETRIES)).
  { intros Hsrv.
    pose proof (session_request_persistent_503 net base_url GET u
                  {| arg_data := None; arg_json := None; arg_params := None;
                     arg_stream := true; arg_timeout := 30%Q |} t Hsrv) as H503.
    change (value GET) with "GET" in H503. rewrite H503 in Hrun.
    injection Hrun as <- Hevs.
    apply app_inv_head in Hevs. subst evs.
    split; [eauto | reflexivity]. }
  generalize dependent (Z.to_nat (1 + MAX_RETRIES)). intros N Hpers.
  assert (Hfail : forall (e : exc) (more : list event),
            ((forall n m u', exists resp,
                 server net n m u' = Answered resp /\ status resp = 503) ->
             attempts (evs ++ more) = N) ->
            exists (b : bool) before final,
              (logger ERROR [T "❌ Download failed for "; T u; T ": "; T (exc_str e)] ;;
               ret false) ((t ++ evs) ++ more)
                = (Ret b, t ++ before ++ [final])
              /\ ((b = true
                   /\ final = Log INFO [T "⬇️ Downloaded: "; T (path_name save_path)])
                  \/ (b = false
                      /\ exists msg,
                           final = Log ERROR [T "❌ Download failed for "; T u;
                                              T ": "; T msg]))
              /\ ((forall n m u', exists resp,
                      server net n m u' = Answered resp /\ status resp = 503) ->
                  b = false /\ attempts before = N)).
  { intros e more Hmore. exists false, (evs ++ more). eexists.
    split; [run; now rewrite <- !app_assoc|].
    split; [right; eauto|]. intros Hsrv. split; [reflexivity | now apply Hmore]. }
  assert (Hreal : forall response, res = Ret response ->
            (forall n m u', exists resp,
                server net n m u' = Answered resp /\ status resp = 503) -> False).
  { intros response -> Hsrv. destruct (Hpers Hsrv) as [[e He] _]. discriminate He. }
  unfold bind at 1. rewrite Hrun.
  destruct res as [response|e].
  2: { rewrite except_Exception_catches.
       rewrite <- (app_nil_r (t ++ evs)). apply Hfail.
       intros Hsrv. rewrite app_nil_r. now apply Hpers. }
  specialize (Hreal response eq_refl).
  unfold bind at 1. unfold raise_for_status.
  destruct (str_truthy (http_error_msg response)).
  { unfold raise. rewrite except_Exception_catches.
    rewrite <- (app_nil_r (t ++ evs)). apply Hfail.
    intros Hsrv. destruct (Hreal Hsrv). }
  unfold ret at 1. unfold bind at 1, emit at 1. unfold bind at 1, or_raise at 1.
  destruct (fs_open disk save_path) as [e|].
  { unfold raise. rewrite except_Exception_catches. apply Hfail.
    intros Hsrv. destruct (Hreal Hsrv). }
  unfold ret at 1. unfold bind at 1.
  destruct (for_iter_content_writes disk save_path (raw response)
              ((t ++ evs) ++ [FileOpen save_path]))
    as (res & wevs & Hloop & Hw).
  rewrite Hloop. destruct res as [[]|e].
  2: { rewrite except_Exception_catches. rewrite <- (app_assoc (t ++ evs)).
       apply Hfail. intros Hsrv. destruct (Hreal Hsrv). }
  run. exists true, (evs ++ FileOpen save_path :: wevs). eexists.
  split; [now rewrite <- !app_assoc|].
  split; [left; split; reflexivity|].
  intros Hsrv. destruct (Hreal Hsrv).
Qed.

(** The theorem at the server of [Scenarios.unavailable]. *)
Lemma download_file_witness :
  (forall n m u', exists resp,
      server Scenarios.unavailable n m u' = Answered resp /\ status resp = 503)
  /\ exists b before final,
       download_file (new_client Scenarios.unavailable "https://api.example.com/")
         Scenarios.good_disk "https://i.pinimg.com/originals/ab/cd.jpg"
         "downloads/cat_1.jpg" [] = (Ret b, [] ++ before ++ [final])
       /\ b = false
       /\ attempts before = Z.to_nat (1 + MAX_RETRIES).
Proof.
  assert (H : forall n m u', exists resp,
             server Scenarios.unavailable n m u' = Answered resp /\ status resp = 503).
  { intros n m u'. eexists. split; reflexivity. }
  split; [exact H|].
  destruct (download_file_returns_bool Scenarios.unavailable
              "https://api.example.com/" Scenarios.good_disk
              "https://i.pinimg.com/originals/ab/cd.jpg" "downloads/cat_1.jpg" [])
    as (b & before & final & Hrun & _ & Hpers).
  exists b, before, final. split; [exact Hrun|]. exact (Hpers H).
Defined.

(** C6 as stated fails on the number of attempts: against a server that
    always answers 503, one call of [download_file] puts four requests on
    the wire before it returns [False]. *)
Lemma download_file_retries :
  exists t',
    download_file (new_client Scenarios.unavailable "https://api.example.com/")
      Scenarios.good_disk "https://i.pinimg.com/originals/ab/cd.jpg"
      "downloads/cat_1.jpg" [] = (Ret false, t')
    /\ attempts t' = 4%nat
    /\ attempts t' <> 1%nat.
Proof.
  eexists. split; [vm_compute; reflexivity|].
  split; [reflexivity | cbn; discriminate].
Qed.

(* ================================================================== *)
(** * Further properties of the pages *)
(* ================================================================== *)


Lemma lstrip_no_leading_space (s : string) :
  Pages.starts_with_space (lstrip s) = false.
Proof.
  induction s as [|c s IH]; cbn; [reflexivity|].
  destruct (is_space c) eqn:E; [exact IH|]. cbn. exact E.
Qed.

Lemma rstrip_no_trailing_space (s : string) :
  Pages.ends_with_space (rstrip s) = false.
Proof.
  induction s as [|c s IH]; cbn; [reflexivity|].
  destruct (rstrip s) as [|c' r'] eqn:R.
  - destruct (is_space c) eqn:E; cbn; [reflexivity | exact E].
  - exact IH.
Qed.

Lemma rstrip_keeps_head (s : string) :
  Pages.starts_with_space s = false ->
  Pages.starts_with_space (rstrip s) = false.
Proof.
  destruct s as [|c s]; cbn; [reflexivity|]. intros E.
  destruct (rstrip s); [rewrite E|]; cbn; exact E.
Qed.

Lemma strip_no_outer_space (s : string) :
  Pages.starts_with_space (strip s) = false
  /\ Pages.ends_with_space (strip s) = false.
Proof.
  unfold strip. split.
  - apply rstrip_keeps_head, lstrip_no_leading_space.
  - apply rstrip_no_trailing_space.
Qed.

(** X2.  What [get_text] returns neither begins nor ends with whitespace, and
    it is the empty text when the element has no text content ([None])
    or an empty one. *)
Theorem get_text_is_stripped (page : Page) (l : Locator) (d : option string)
    (t t' : trace) (s : string) :
  get_text page l d t = (Ret s, t') ->
  Pages.starts_with_space s = false
  /\ Pages.ends_with_space s = false
  /\ (locator_text_content page l = Ret None -> s = EmptyString)
  /\ (locator_text_content page l = Ret (Some EmptyString) -> s = EmptyString).
Proof.
  unfold get_text. run.
  destruct (locator_text_content page l) as [c|e]; run; [|discriminate].
  intros [= <- _].
  destruct (strip_no_outer_space (str_or c EmptyString)) as [H1 H2].
  repeat split; auto.
  - intros [= ->]. reflexivity.
  - intros [= ->]. reflexivity.
Qed.

Lemma get_text_witness :
  let page := Scenarios.page_showing Scenarios.everything Scenarios.nothing in
  get_text page (ByCss "h1") None [] =
    (Ret "Pins",
     [TextContent (ByCss "h1");
      Log DEBUG [T "👀 Read text from '"; T "element"; T "': '"; T "Pins"; T "'"]])
  /\ Pages.starts_with_space "Pins" = false
  /\ Pages.ends_with_space "Pins" = false
  /\ (locator_text_content page (ByCss "h1") = Ret None -> "Pins" = EmptyString)
  /\ (locator_text_content page (ByCss "h1") = Ret (Some EmptyString)
      -> "Pins" = EmptyString).
Proof.
  cbv zeta. split; [reflexivity|].
  apply (get_text_is_stripped
           (Scenarios.page_showing Scenarios.everything Scenarios.nothing)
           (ByCss "h1") None []
           [TextContent (ByCss "h1");
            Log DEBUG [T "👀 Read text from '"; T "element"; T "': '"; T "Pins"; T "'"]]).
  reflexivity.
Defined.

(** [_dismiss_popup_if_present], run. *)
Lemma dismiss_popup_run (page : Page) (t : trace) :
  Pages._dismiss_popup_if_present page t =
    (Ret tt,
     t ++ WaitFor (ByLabel "Close") 3000
       :: match wait_for_visible page (ByLabel "Close") 3000 with
          | None => [Log INFO [T "🧹 Dismissing popup..."]; Click (ByLabel "Close") []]
          | Some _ => []
          end).
Proof.
  unfold Pages._dismiss_popup_if_present. cbv zeta.
  unfold bind at 1. rewrite is_visible_slow_run.
  destruct (wait_for_visible page (ByLabel "Close") 3000) as [e|]; [reflexivity|].
  run. destruct (locator_click page (ByLabel "Close") []) as [e|]; run.
  - rewrite except_Exception_catches. run. norm_trace.
  - norm_trace.
Qed.

(** X3.  [_dismiss_popup_if_present] never raises.  It waits up to 3000 ms
    for the Close label; only when the label shows up does it click it,
    once, and a click that fails is swallowed: the outcome of the click
    changes neither the result nor the history. *)
Theorem dismiss_popup_never_raises (page : Page) (t : trace) :
  exists evs,
    Pages._dismiss_popup_if_present page t
      = (Ret tt, t ++ WaitFor (ByLabel "Close") 3000 :: evs)
    /\ evs = match wait_for_visible page (ByLabel "Close") 3000 with
             | None => [Log INFO [T "🧹 Dismissing popup..."];
                        Click (ByLabel "Close") []]
             | Some _ => []
             end.
Proof.
  rewrite dismiss_popup_run. eexists. split; reflexivity.
Qed.

(** [get_error_message] returns the empty text, without reading the
    page, when the error element does not show up within 3000 ms;
    otherwise it is [get_text] on that element. *)
Theorem get_error_message_reads_only_when_shown (page : Page) (t : trace) :
  let error_loc := ByCss "[data-test-id='login-error']" in
  Pages.get_error_message page t =
    match wait_for_visible page error_loc 3000 with
    | Some _ => (Ret EmptyString, t ++ [WaitFor error_loc 3000])
    | None => get_text page error_loc (Some "Error Message")
                (t ++ [WaitFor error_loc 3000])
    end.
Proof.
  cbv zeta. unfold Pages.get_error_message. cbv zeta.
  unfold bind at 1. rewrite is_visible_slow_run.
  destruct (wait_for_visible page _ 3000); reflexivity.
Qed.

(** X4.  [is_no_results] never raises: it answers [True] exactly when the
    feed grid does not show up within 5000 ms, and logs that case. *)
Theorem is_no_results_iff_grid_hidden (page : Page) (t : trace) :
  exists b evs,
    Pages.is_no_results page t = (Ret b, t ++ WaitFor (ByCss Pages.FEED_GRID) 5000 :: evs)
    /\ (b = true <-> exists e, wait_for_visible page (ByCss Pages.FEED_GRID) 5000 = Some e)
    /\ evs = (if b then [Log INFO [T "🚫 No search results - FEED_GRID not found"]]
              else []).
Proof.
  unfold Pages.is_no_results. unfold bind at 1. rewrite is_visible_slow_run.
  destruct (wait_for_visible page (ByCss Pages.FEED_GRID) 5000) as [e|]; run.
  - exists true. eexists. split; [norm_trace|]. split; [|reflexivity].
    split; eauto.
  - exists false, []. split; [reflexivity|]. split; [|reflexivity].
    split; [discriminate|]. intros [e H]. discriminate H.
Qed.

(* ================================================================== *)
(** * Further properties of the HTTP client *)
(* ================================================================== *)

Lemma rstrip_slash_of_slashes (z : string) :
  Slashes.all_slashes z = true -> rstrip_slash z = EmptyString.
Proof.
  induction z as [|c z IH]; cbn; [reflexivity|].
  intros H. apply andb_prop in H as [Hc Hz]. rewrite (IH Hz).
  unfold Slashes.is_slash in Hc. now rewrite Hc.
Qed.

Lemma rstrip_slash_append (s z : string) :
  Slashes.all_slashes z = true -> rstrip_slash (s ^^ z) = rstrip_slash s.
Proof.
  intros Hz. induction s as [|c s IH]; cbn.
  - now apply rstrip_slash_of_slashes.
  - now rewrite IH.
Qed.

Lemma rstrip_slash_no_trailing (s : string) :
  Slashes.ends_with_slash (rstrip_slash s) = false.
Proof.
  induction s as [|c s IH]; cbn; [reflexivity|].
  destruct (rstrip_slash s) as [|c' r'] eqn:R.
  - destruct (nat_of_ascii c =? 47)%nat eqn:E; cbn; [reflexivity|].
    unfold Slashes.is_slash. exact E.
  - exact IH.
Qed.

Lemma rstrip_slash_split (s : string) :
  exists z, Slashes.all_slashes z = true /\ s = rstrip_slash s ^^ z.
Proof.
  induction s as [|c s (z & Hz & Hs)]; cbn.
  - exists EmptyString. split; reflexivity.
  - destruct (rstrip_slash s) as [|c' r'] eqn:R.
    + cbn in Hs. subst s.
      destruct (nat_of_ascii c =? 47)%nat eqn:E.
      * exists (String c z). split; [|reflexivity]. cbn.
        unfold Slashes.is_slash. now rewrite E, Hz.
      * exists z. split; [exact Hz | reflexivity].
    + exists z. split; [exact Hz|]. cbn. cbn in Hs. now rewrite <- Hs.
Qed.

(** X5.  Trailing slashes of the base URL do not matter: the client keeps the
    URL without them (and nothing else is removed), so
    [BaseAPIClient("https://host/")] and [BaseAPIClient("https://host")]
    are the same client and address the same URLs. *)
Theorem base_url_ignores_trailing_slashes (net : Network) (s z : string) :
  Slashes.all_slashes z = true ->
  new_client net (s ^^ z) = new_client net s
  /\ Slashes.ends_with_slash (_base_url (new_client net s)) = false
  /\ exists z', Slashes.all_slashes z' = true
                /\ s = _base_url (new_client net s) ^^ z'.
Proof.
  intros Hz. unfold new_client. cbn [_base_url].
  rewrite (rstrip_slash_append s z Hz).
  split; [reflexivity|]. split; [apply rstrip_slash_no_trailing|].
  apply rstrip_slash_split.
Qed.

Lemma base_url_witness :
  Slashes.all_slashes "//" = true
  /\ new_client Scenarios.unavailable ("https://api.example.com/v3" ^^ "//")
     = new_client Scenarios.unavailable "https://api.example.com/v3"
  /\ Slashes.ends_with_slash
       (_base_url (new_client Scenarios.unavailable "https://api.example.com/v3"))
     = false
  /\ exists z', Slashes.all_slashes z' = true
                /\ "https://api.example.com/v3"
                   = _base_url (new_client Scenarios.unavailable
                                  "https://api.example.com/v3") ^^ z'.
Proof.
  split; [reflexivity|].
  apply (base_url_ignores_trailing_slashes Scenarios.unavailable
           "https://api.example.com/v3" "//").
  reflexivity.
Defined.


Lemma is_retry_forced (r : Retry) (m : string) (code : Z) (h : bool) :
  _is_method_retryable r m = true ->
  mem_Z code (status_forcelist r) = true ->
  is_retry r m code h = true.
Proof. intros Hm Hf. unfold is_retry. now rewrite Hm, Hf. Qed.

Lemma is_retry_final (r : Retry) (m : string) (code : Z) :
  mem_Z code (status_forcelist r) = false ->
  is_retry r m code false = false.
Proof.
  intros Hf. unfold is_retry. rewrite Hf.
  destruct (negb (_is_method_retryable r m)); [reflexivity|].
  now rewrite andb_false_r.
Qed.

(** A server that answers with statuses of the force list [k] times and
    then with a response that asks for no retry: [urlopen] hands that
    response back after [k + 1] attempts, when the policy allows [k]
    retries. *)
Lemma urlopen_transient (net : Network) (m u : string) (resp : HTTPResponse) :
  forall (k depth : nat) (r : Retry) (t : trace),
    (forall i, (i < k)%nat ->
       exists ri, server net (attempts t + i) m u = Answered ri
                  /\ mem_Z (status ri) (status_forcelist r) = true) ->
    server net (attempts t + k) m u = Answered resp ->
    mem_Z (status resp) (status_forcelist r) = false ->
    has_retry_after resp = false ->
    _is_method_retryable r m = true ->
    Z.of_nat k <= total r ->
    (k < depth)%nat ->
    urlopen net depth m u r t =
      (Ret (inl resp), t ++ repeat (HttpAttempt m u) (S k)).
Proof.
  induction k as [|k IH]; intros depth r t Hpre Hfin Hnf Hra Hm Htot Hd;
    (destruct depth as [|dp]; [lia|]); cbn [urlopen]; run.
  - rewrite Nat.add_0_r in Hfin. rewrite Hfin, Hra.
    now rewrite (is_retry_final r m (status resp) Hnf).
  - destruct (Hpre 0%nat ltac:(lia)) as (r0 & H0 & Hf0).
    rewrite Nat.add_0_r in H0. rewrite H0.
    rewrite (is_retry_forced r m (status r0) _ Hm Hf0).
    unfold increment. cbn [andb]. unfold is_exhausted. cbn [total with_total].
    destruct (total r - 1 =? 0) eqn:Z0;
      [|destruct (total r - 1 <? 0) eqn:Z1; [lia|]].
    all: rewrite (IH dp (with_total r (total r - 1)) (t ++ [HttpAttempt m u]));
      cbn [total with_total status_forcelist]; auto; try lia;
      try (now rewrite <- app_assoc).
    all: try (intros i Hi; rewrite attempts_app; cbn;
              replace (attempts t + 1 + i)%nat with (attempts t + S i)%nat by lia;
              apply Hpre; lia).
    all: rewrite attempts_app; cbn;
      replace (attempts t + 1 + k)%nat with (attempts t + S k)%nat by lia;
      exact Hfin.
Qed.


(** The same from the session of a client. *)
Lemma session_request_transient (net : Network) (base_url : string)
    (method : HTTPMethod) (u : string) (a : request_args) (t : trace)
    (k : nat) (resp : HTTPResponse) :
  (k <= 3)%nat ->
  (forall i, (i < k)%nat ->
     exists ri, server net (attempts t + i) (value method) u = Answered ri
                /\ mem_Z (status ri) RETRY_STATUS_CODES = true) ->
  server net (attempts t + k) (value method) u = Answered resp ->
  mem_Z (status resp) RETRY_STATUS_CODES = false ->
  has_retry_after resp = false ->
  Session_request (_session (new_client net base_url)) (value method) u a t =
    (if arg_stream a then Ret (build_response u resp)
     else match first_failure (body resp) with
          | Some e => Raise e
          | None => Ret (build_response u resp)
          end,
     t ++ repeat (HttpAttempt (value method) u) (S k)).
Proof.
  intros Hk Hpre Hfin Hnf Hra. unfold Session_request, HTTPAdapter_send, bind.
  rewrite (urlopen_transient net (value method) u resp k); auto.
  - unfold ret. destruct (arg_stream a); [reflexivity|].
    cbn [raw build_response].
    destruct (first_failure (body resp)); reflexivity.
  - apply client_methods_retryable.
  - change (total (max_retries (_session (new_client net base_url)))) with 3. lia.
  - unfold recursion_limit. lia.
Qed.


Lemma http_error_msg_truthy (r : Response) :
  str_truthy (http_error_msg r)
  = (400 <=? Requests.status_code r) && (Requests.status_code r <? 600).
Proof.
  unfold http_error_msg.
  destruct (400 <=? Requests.status_code r) eqn:A;
  destruct (Requests.status_code r <? 500) eqn:B;
  destruct (500 <=? Requests.status_code r) eqn:C;
  destruct (Requests.status_code r <? 600) eqn:D; cbn [andb];
  try rewrite str_truthy_append_r by reflexivity; try reflexivity; lia.
Qed.


(** The first part of [download_file], up to the status check: what the
    session hands back for a first answer that asks for no retry. *)
Lemma download_request_run (net : Network) (base_url u : string) (t : trace)
    (resp : HTTPResponse) :
  server net (attempts t) "GET" u = Answered resp ->
  mem_Z (status resp) RETRY_STATUS_CODES = false ->
  has_retry_after resp = false ->
  Session_request (_session (new_client net base_url)) "GET" u
    {| arg_data := None; arg_json := None; arg_params := None;
       arg_stream := true; arg_timeout := 30%Q |} t
  = (Ret (build_response u resp), t ++ [HttpAttempt "GET" u]).
Proof.
  intros Hsrv Hnf Hra.
  apply (session_request_transient net base_url GET u
           {| arg_data := None; arg_json := None; arg_params := None;
              arg_stream := true; arg_timeout := 30%Q |} t 0 resp);
    auto; try lia.
  now rewrite Nat.add_0_r.
Qed.


(** X10.  A download the server refuses: on an answer with a status in
    400..599 that is not retried, [download_file] logs the HTTP error and
    returns [False] without opening the file. *)
Theorem download_file_http_error_opens_nothing (net : Network) (base_url : string)
    (disk : Disk) (u save_path : string) (t : trace) (resp : HTTPResponse) :
  server net (attempts t) "GET" u = Answered resp ->
  mem_Z (status resp) RETRY_STATUS_CODES = false ->
  has_retry_after resp = false ->
  400 <= status resp < 600 ->
  download_file (new_client net base_url) disk u save_path t =
    (Ret false,
     t ++ [HttpAttempt "GET" u;
           Log ERROR [T "❌ Download failed for "; T u; T ": ";
                      T (http_error_msg (build_response u resp))]]).
Proof.
  intros Hsrv Hnf Hra Hbad.
  unfold download_file, try_except. unfold bind at 1.
  rewrite (download_request_run net base_url u t resp Hsrv Hnf Hra).
  unfold bind at 1. unfold raise_for_status.
  rewrite http_error_msg_truthy. cbn [Requests.status_code build_response].
  replace ((400 <=? status resp) && (status resp <? 600)) with true
    by (symmetry; apply andb_true_iff; lia).
  unfold raise. rewrite except_Exception_catches. run. norm_trace.
Qed.





Lemma download_file_http_error_witness :
  let net := Scenarios.always (Answered Scenarios3.not_found) in
  let u := "https://i.pinimg.com/originals/ab/gone.jpg" in
  server net (attempts []) "GET" u = Answered Scenarios3.not_found
  /\ mem_Z (status Scenarios3.not_found) RETRY_STATUS_CODES = false
  /\ has_retry_after Scenarios3.not_found = false
  /\ 400 <= status Scenarios3.not_found < 600
  /\ download_file (new_client net "https://api.example.com") Scenarios.good_disk
       u "downloads/img_1.jpg" [] =
       (Ret false,
        [] ++ [HttpAttempt "GET" u;
               Log ERROR [T "❌ Download failed for "; T u; T ": ";
                          T (http_error_msg (build_response u Scenarios3.not_found))]]).
Proof.
  cbv zeta.
  assert (Hbad : 400 <= status Scenarios3.not_found < 600) by (cbn; lia).
  repeat (split; [first [exact Hbad | reflexivity]|]).
  apply (download_file_http_error_opens_nothing
           (Scenarios.always (Answered Scenarios3.not_found))
           "https://api.example.com" Scenarios.good_disk
           "https://i.pinimg.com/originals/ab/gone.jpg" "downloads/img_1.jpg" []
           Scenarios3.not_found);
    first [exact Hbad | reflexivity].
Defined.


(* ================================================================== *)
(** * Further properties of the settings *)
(* ================================================================== *)

(** X12.  Whatever [TEST_ENV] holds, the settings resolve: the name is matched
    without regard to case; a known name gives its environment and
    prints nothing; any other name, and an unset variable, give
    production (a warning is printed for the unknown name only); the UI
    and API URLs are those of that one environment, and building them
    never fails on a missing key. *)
Theorem environment_always_resolves (TEST_ENV : option string) :
  let env := fst (SettingsEnv._get_environment TEST_ENV) in
  let printed := snd (SettingsEnv._get_environment TEST_ENV) in
  let name := Urllib3.lower (match TEST_ENV with
                             | Some s => s
                             | None => "production"
                             end) in
  ((name = SettingsEnv.value env /\ printed = [])
   \/ (env = SettingsEnv.PRODUCTION
       /\ SettingsEnv.Environment_of name = None
       /\ printed = ["[WARNING] Unknown env '" ^^ name
                       ^^ "', falling back to PRODUCTION"]))
  /\ (TEST_ENV = None -> env = SettingsEnv.PRODUCTION /\ printed = [])
  /\ exists cfg,
       SettingsEnv._configure_urls env = Some cfg
       /\ In (env, SettingsEnv.base_ui cfg) SettingsEnv.ENV_URLS
       /\ In (env, SettingsEnv.base_api cfg) SettingsEnv.ENV_API_URLS
       /\ SettingsEnv.full_login_url cfg = SettingsEnv.base_ui cfg ^^ "/login/".
Proof.
  cbv zeta. unfold SettingsEnv._get_environment.
  set (name := Urllib3.lower _).
  split; [|split].
  - unfold SettingsEnv.Environment_of. cbn [find SettingsEnv.value].
    destruct (String.eqb_spec "local" name) as [E1|E1]; [left; cbn; auto|].
    destruct (String.eqb_spec "staging" name) as [E2|E2]; [left; cbn; auto|].
    destruct (String.eqb_spec "production" name) as [E3|E3]; [left; cbn; auto|].
    right. cbn. auto.
  - intros ->. subst name. cbn. auto.
  - destruct (SettingsEnv.Environment_of name) as [e|]; cbn [fst];
      [destruct e|]; eexists; (split; [reflexivity|]); cbn; auto 6.
Qed.

(** The names are read without regard to case, and an unknown one is
    not an error. *)
Example environment_examples :
  fst (SettingsEnv._get_environment (Some "Staging")) = SettingsEnv.STAGING
  /\ fst (SettingsEnv._get_environment (Some "LOCAL")) = SettingsEnv.LOCAL
  /\ fst (SettingsEnv._get_environment (Some "qa")) = SettingsEnv.PRODUCTION
  /\ fst (SettingsEnv._get_environment (Some EmptyString)) = SettingsEnv.PRODUCTION.
Proof. repeat split. Qed.

(* ================================================================== *)
(** * Further properties of the pages that drive the browser *)
(* ================================================================== *)

Import Browser.

Ltac xrun :=
  unfold xtry_except, xbind, xret, xraise, xemit, xlogger, xhistory, xor_raise,
    xlift;
  cbn -[String.append isinstance str_of_int old olds].

Lemma olds_app (a b : xtrace) : olds (a ++ b) = olds a ++ olds b.
Proof.
  induction a as [|ev a IH]; cbn; [reflexivity|].
  destruct ev; cbn; now rewrite IH.
Qed.

Lemma olds_map_Old (l : trace) : olds (map Old l) = l.
Proof. induction l as [|ev l IH]; cbn; [reflexivity|]. now rewrite IH. Qed.

(** A statement of before that extends the history by [evs] does the
    same in the wider history. *)
Lemma old_run {A} (m : M A) (xt : xtrace) (r : result A) (evs : trace) :
  m (olds xt) = (r, olds xt ++ evs) ->
  old m xt = (r, xt ++ map Old evs).
Proof.
  intros H. unfold old. rewrite H.
  rewrite skipn_app, skipn_all, Nat.sub_diag. reflexivity.
Qed.

Lemma filter_map_Old_keyboard (l : trace) : filter is_keyboard (map Old l) = [].
Proof. induction l as [|ev l IH]; cbn; [reflexivity | exact IH]. Qed.

(** [_get_active_search_box], run: the answer for each of the four ways
    the three waits can end. *)
Lemma search_box_run (page : Page) (t : trace) :
  exists evs,
    HomePage._get_active_search_box page t =
      (match find (HomePage.becomes_visible page) HomePage.candidates with
       | Some c => Ret c
       | None => Raise (mkExc Exception_ HomePage.not_found_message)
       end, t ++ evs)
    /\ Forall (fun ev => match ev with
                         | Click _ _ => False
                         | _ => True
                         end) evs.
Proof.
  unfold HomePage.candidates, find, HomePage._get_active_search_box.
  rewrite bind_is_visible_slow.
  destruct (HomePage.becomes_visible page HomePage.box_technical).
  { eexists. split; [reflexivity|]. repeat constructor. }
  rewrite bind_is_visible_slow.
  destruct (HomePage.becomes_visible page HomePage.box_by_name).
  { eexists. split; [run; norm_trace|]. repeat constructor. }
  rewrite bind_is_visible_slow.
  destruct (HomePage.becomes_visible page HomePage.box_label).
  { eexists. split; [run; norm_trace|]. repeat constructor. }
  unfold bind at 1. rewrite take_screenshot_run. unfold raise.
  eexists. split; [norm_trace|].
  repeat constructor. destruct (page_screenshot page _); exact I.
Qed.

Lemma no_click_is_no_old_click (evs : trace) :
  Forall (fun ev => match ev with Click _ _ => False | _ => True end) evs ->
  filter is_old_click (map Old evs) = [].
Proof.
  induction 1 as [|ev evs H _ IH]; cbn; [reflexivity|].
  destruct ev; try exact IH. destruct H.
Qed.

(** X13.  Without a search box nothing is typed: when no strategy finds the
    box, [search_for] raises the error of the resolver, and no click, no
    keystroke and no Enter has been sent to the page. *)
Theorem search_for_types_nothing_without_box (tc : Settings.TimeoutConfig)
    (xp : XPage) (keyword : string) (xt : xtrace) :
  find (HomePage.becomes_visible (base xp)) HomePage.candidates = None ->
  exists evs,
    search_for tc xp keyword xt =
      (Raise (mkExc Exception_ HomePage.not_found_message), xt ++ evs)
    /\ filter is_keyboard evs = []
    /\ filter is_old_click evs = [].
Proof.
  intros Hnone. unfold search_for. unfold xbind at 1. unfold xlogger, xemit.
  unfold xbind at 1.
  destruct (search_box_run (base xp)
              (olds (xt ++ [Old (Log INFO [T "🔍 Searching for: '"; T keyword; T "'"])])))
    as (evs & Hrun & Hnc).
  rewrite Hnone in Hrun.
  rewrite (old_run _ _ _ _ Hrun).
  eexists. split; [now rewrite <- app_assoc|]. cbn [List.app filter is_keyboard is_old_click].
  split; [apply filter_map_Old_keyboard | now apply no_click_is_no_old_click].
Qed.

Lemma search_for_nothing_witness :
  let xp := {| base := Scenarios.page_showing Scenarios.nothing Scenarios.nothing;
               page_goto := fun _ => None;
               page_wait_for_timeout := fun _ => None;
               locator_type := fun _ _ _ => None;
               locator_press := fun _ _ => None;
               mouse_wheel := fun _ _ => None;
               locator_count := fun _ _ => Ret 0;
               locator_get_attribute := fun _ _ _ => Ret None |} in
  find (HomePage.becomes_visible (base xp)) HomePage.candidates = None
  /\ exists evs,
       search_for Scenarios.timeouts0 xp "4K Wallpaper" [] =
         (Raise (mkExc Exception_ HomePage.not_found_message), [] ++ evs)
       /\ filter is_keyboard evs = []
       /\ filter is_old_click evs = [].
Proof.
  cbv zeta. split; [reflexivity|].
  apply (search_for_types_nothing_without_box Scenarios.timeouts0
           {| base := Scenarios.page_showing Scenarios.nothing Scenarios.nothing;
              page_goto := fun _ => None;
              page_wait_for_timeout := fun _ => None;
              locator_type := fun _ _ _ => None;
              locator_press := fun _ _ => None;
              mouse_wheel := fun _ _ => None;
              locator_count := fun _ _ => Ret 0;
              locator_get_attribute := fun _ _ _ => Ret None |}
           "4K Wallpaper" []).
  reflexivity.
Defined.

(** X14.  The search as typed: when a strategy finds the box and the page
    takes every call, [search_for] clicks that very locator, waits the
    typing delay, types the keyword into it with the same delay per key,
    waits, and presses Enter on it, in this order; nothing else is
    clicked or typed. *)
Theorem search_for_types_into_resolved_box (tc : Settings.TimeoutConfig)
    (xp : XPage) (keyword : string) (xt : xtrace) (c : Locator) :
  find (HomePage.becomes_visible (base xp)) HomePage.candidates = Some c ->
  locator_click (base xp) c [] = None ->
  page_wait_for_timeout xp (Settings.TYPING_TIMEOUT tc) = None ->
  locator_type xp c keyword (Settings.TYPING_TIMEOUT tc) = None ->
  page_wait_for_timeout xp (Settings.SHORT13_TIMEOUT tc) = None ->
  locator_press xp c "Enter" = None ->
  exists resolving,
    search_for tc xp keyword xt =
      (Ret tt,
       xt ++ Old (Log INFO [T "🔍 Searching for: '"; T keyword; T "'"])
          :: map Old resolving
          ++ [Old (Click c []);
              WaitForTimeout (Settings.TYPING_TIMEOUT tc);
              TypeText c keyword (Settings.TYPING_TIMEOUT tc);
              Old (Log INFO [T "⌨️ Typed '"; T keyword; T "' into Search Box"]);
              WaitForTimeout (Settings.SHORT13_TIMEOUT tc);
              Press c "Enter"])
    /\ filter is_keyboard (map Old resolving) = []
    /\ filter is_old_click (map Old resolving) = [].
Proof.
  intros Hc Hclick Hw1 Htype Hw2 Hpress.
  unfold search_for. unfold xbind at 1. unfold xlogger at 1, xemit at 1.
  unfold xbind at 1.
  destruct (search_box_run (base xp)
              (olds (xt ++ [Old (Log INFO [T "🔍 Searching for: '"; T keyword; T "'"])])))
    as (evs & Hrun & Hnc).
  rewrite Hc in Hrun. rewrite (old_run _ _ _ _ Hrun).
  unfold xbind at 1. unfold locator_click_.
  erewrite old_run; [|run; rewrite Hclick; reflexivity].
  unfold wait_for_timeout, type_, press. xrun.
  rewrite Hw1. xrun. rewrite Htype. xrun. rewrite Hw2. xrun. rewrite Hpress. xrun.
  exists evs. split; [|split].
  - f_equal. repeat rewrite <- app_assoc. reflexivity.
  - apply filter_map_Old_keyboard.
  - now apply no_click_is_no_old_click.
Qed.

Lemma search_for_witness :
  let xp := Scenarios4.browser
              (Scenarios.page_showing (Scenarios.only HomePage.box_by_name)
                                      Scenarios.nothing)
              0 (fun _ _ => None) in
  let tc := Scenarios.timeouts0 in
  find (HomePage.becomes_visible (base xp)) HomePage.candidates
    = Some HomePage.box_by_name
  /\ locator_click (base xp) HomePage.box_by_name [] = None
  /\ page_wait_for_timeout xp (Settings.TYPING_TIMEOUT tc) = None
  /\ locator_type xp HomePage.box_by_name "Cyberpunk Art" (Settings.TYPING_TIMEOUT tc)
     = None
  /\ page_wait_for_timeout xp (Settings.SHORT13_TIMEOUT tc) = None
  /\ locator_press xp HomePage.box_by_name "Enter" = None
  /\ exists resolving,
       search_for tc xp "Cyberpunk Art" [] =
         (Ret tt,
          [] ++ Old (Log INFO [T "🔍 Searching for: '"; T "Cyberpunk Art"; T "'"])
             :: map Old resolving
             ++ [Old (Click HomePage.box_by_name []);
                 WaitForTimeout (Settings.TYPING_TIMEOUT tc);
                 TypeText HomePage.box_by_name "Cyberpunk Art"
                   (Settings.TYPING_TIMEOUT tc);
                 Old (Log INFO [T "⌨️ Typed '"; T "Cyberpunk Art";
                                T "' into Search Box"]);
                 WaitForTimeout (Settings.SHORT13_TIMEOUT tc);
                 Press HomePage.box_by_name "Enter"])
       /\ filter is_keyboard (map Old resolving) = []
       /\ filter is_old_click (map Old resolving) = [].
Proof.
  cbv zeta. repeat (split; [reflexivity|]).
  apply (search_for_types_into_resolved_box Scenarios.timeouts0
           (Scenarios4.browser
              (Scenarios.page_showing (Scenarios.only HomePage.box_by_name)
                                      Scenarios.nothing)
              0 (fun _ _ => None))
           "Cyberpunk Art" [] HomePage.box_by_name); reflexivity.
Defined.

(** The spec's scenario, run: with only the name attribute visible the
    search warns about the fallback, types with the delay drawn for the
    run, and submits with Enter. *)
Example search_with_name_fallback :
  search_for Scenarios.timeouts0
    (Scenarios4.browser
       (Scenarios.page_showing (Scenarios.only HomePage.box_by_name) Scenarios.nothing)
       0 (fun _ _ => None))
    "Cyberpunk Art" []
  = (Ret tt,
     [Old (Log INFO [T "🔍 Searching for: '"; T "Cyberpunk Art"; T "'"]);
      Old (WaitFor HomePage.box_technical 2000);
      Old (WaitFor HomePage.box_by_name 2000);
      Old (Log WARNING [T "⚠️ Primary selector failed. Using name attribute fallback."]);
      Old (Click HomePage.box_by_name []);
      WaitForTimeout 412;
      TypeText HomePage.box_by_name "Cyberpunk Art" 412;
      Old (Log INFO [T "⌨️ Typed '"; T "Cyberpunk Art"; T "' into Search Box"]);
      WaitForTimeout 1800;
      Press HomePage.box_by_name "Enter"]).
Proof. vm_compute. reflexivity. Qed.

(** X15.  [HomePage.navigate] fails only when the navigation itself fails: it
    raises exactly what [page.goto] raises, before looking for a popup;
    once the page is open the popup handling cannot make it fail. *)
Theorem navigate_fails_only_on_goto (base_ui : string) (xp : XPage) (xt : xtrace) :
  navigate base_ui xp xt =
    (match page_goto xp base_ui with
     | None => Ret tt
     | Some e => Raise e
     end,
     xt ++ Old (Log INFO [T "🌍 Navigating to: "; T base_ui]) :: Goto base_ui
        :: match page_goto xp base_ui with
           | Some _ => []
           | None =>
               map Old
                 (WaitFor (ByLabel "Close") 3000
                    :: match wait_for_visible (base xp) (ByLabel "Close") 3000 with
                       | None => [Log INFO [T "🧹 Dismissing popup..."];
                                  Click (ByLabel "Close") []]
                       | Some _ => []
                       end)
           end).
Proof.
  unfold navigate, open, goto. xrun.
  destruct (page_goto xp base_ui) as [e|]; xrun.
  - now rewrite <- app_assoc.
  - erewrite old_run; [|apply dismiss_popup_run].
    now repeat rewrite <- app_assoc.
Qed.

(** [click], run: the two first events and the outcome. *)
Lemma click_fails_loudly_run (page : Page) (l : Locator) (description : string)
    (kw : kwargs) (t : trace) :
  exists evs,
    click page l description kw t =
      (match locator_click page l kw with
       | None => Ret tt
       | Some e => Raise e
       end,
       t ++ Log INFO [T "🖱️ Clicking on '"; T description; T "'"]
         :: Click l kw :: evs).
Proof.
  unfold click. run.
  destruct (locator_click page l kw) as [e|] eqn:E; run.
  - rewrite except_Exception_catches. run.
    rewrite take_screenshot_run. run. eexists. norm_trace.
  - exists []. norm_trace.
Qed.

(** [get_loaded_pins_count], run. *)
Lemma get_loaded_pins_count_run (xp : XPage) (xt : xtrace) :
  get_loaded_pins_count xp xt =
    match locator_count xp xt (ByCss Pages.PIN_ITEM) with
    | Ret n =>
        (Ret n,
         xt ++ [Count (ByCss Pages.PIN_ITEM);
                Old (Log DEBUG [T "👀 Found "; T (str_of_int n); T " pins on screen"])])
    | Raise e => (Raise e, xt ++ [Count (ByCss Pages.PIN_ITEM)])
    end.
Proof.
  unfold get_loaded_pins_count, count. xrun.
  destruct (locator_count xp xt (ByCss Pages.PIN_ITEM)); xrun;
    now repeat rewrite <- app_assoc.
Qed.

(** X16.  [wait_for_results] never fails because of the wait: whether the
    [min_count]-th pin shows up in time or not (a warning is logged if
    not), it goes on to count the pins and returns that count, which may
    be below [min_count], even 0. *)
Theorem wait_for_results_returns_the_count (xp : XPage) (min_count timeout : Z)
    (xt : xtrace) :
  let awaited := nth Pages.PIN_ITEM (min_count - 1) in
  let xt1 :=
    xt ++ Old (Log INFO [T "⏳ Waiting for at least "; T (str_of_int min_count);
                         T " pins to load..."])
       :: Old (WaitFor awaited timeout)
       :: match wait_for_visible (base xp) awaited timeout with
          | None => []
          | Some _ =>
              [Old (Log WARNING [T "⚠️ Timeout waiting for ";
                                 T (str_of_int min_count); T " pins."])]
          end in
  wait_for_results xp min_count timeout xt = get_loaded_pins_count xp xt1
  /\ fst (wait_for_results xp min_count timeout xt)
     = locator_count xp xt1 (ByCss Pages.PIN_ITEM).
Proof.
  cbv zeta.
  assert (H : wait_for_results xp min_count timeout xt
              = get_loaded_pins_count xp
                  (xt ++ Old (Log INFO [T "⏳ Waiting for at least ";
                                        T (str_of_int min_count);
                                        T " pins to load..."])
                      :: Old (WaitFor (nth Pages.PIN_ITEM (min_count - 1)) timeout)
                      :: match wait_for_visible (base xp)
                                 (nth Pages.PIN_ITEM (min_count - 1)) timeout with
                         | None => []
                         | Some _ =>
                             [Old (Log WARNING [T "⚠️ Timeout waiting for ";
                                                T (str_of_int min_count);
                                                T " pins."])]
                         end)).
  { unfold wait_for_results. unfold xbind at 1. unfold xlogger at 1, xemit at 1.
    unfold xbind at 1, xtry_except.
    destruct (wait_for_visible (base xp) (nth Pages.PIN_ITEM (min_count - 1)) timeout)
      as [e|] eqn:W.
    - erewrite old_run; [|unfold bind, emit; reflexivity].
      unfold xexcept_Exception. rewrite every_class_is_an_Exception.
      unfold xlogger, xemit. f_equal. now repeat rewrite <- app_assoc.
    - erewrite old_run; [|unfold bind, emit; reflexivity].
      f_equal. now repeat rewrite <- app_assoc. }
  split; [exact H|]. rewrite H, get_loaded_pins_count_run.
  destruct (locator_count xp _ (ByCss Pages.PIN_ITEM)); reflexivity.
Qed.

(** The spec-less edge, run: no pin ever loads, the wait times out, and
    the call still returns, with 0. *)
Example wait_for_results_on_empty_page :
  fst (wait_for_results
         (Scenarios4.browser (Scenarios.page_showing Scenarios.nothing Scenarios.nothing)
            0 (fun _ _ => None))
         5 10000 [])
  = Ret 0.
Proof. reflexivity. Qed.

(** X17.  [click_pin] with too few pins: when the page counts [found] pins and
    [found <= index], it raises an [Exception] whose text names the index
    and the count read again for the message, and nothing is clicked. *)
Theorem click_pin_out_of_range (xp : XPage) (index : Z) (xt : xtrace)
    (found again : Z) :
  let pins := ByCss Pages.PIN_ITEM in
  let xt1 := xt ++ [Old (Log INFO [T "🖱️ Clicking pin at index ";
                                   T (str_of_int index)])] in
  locator_count xp xt1 pins = Ret found ->
  found <= index ->
  locator_count xp (xt1 ++ [Count pins]) pins = Ret again ->
  click_pin xp index xt =
    (Raise (mkExc Exception_
              ("Cannot click pin #" ^^ str_of_int index ^^ ", only found "
                 ^^ str_of_int again ^^ " pins.")),
     xt1 ++ [Count pins; Count pins]).
Proof.
  cbv zeta. intros H1 Hle H2. unfold click_pin, count. xrun.
  rewrite H1. xrun. replace (found <=? index) with true by (symmetry; lia).
  xrun. rewrite H2. xrun. now repeat rewrite <- app_assoc.
Qed.

Lemma click_pin_out_of_range_witness :
  let xp := Scenarios4.browser
              (Scenarios.page_showing Scenarios.everything Scenarios.nothing)
              3 (fun _ _ => None) in
  let pins := ByCss Pages.PIN_ITEM in
  let xt1 := [] ++ [Old (Log INFO [T "🖱️ Clicking pin at index "; T (str_of_int 3)])] in
  locator_count xp xt1 pins = Ret 3
  /\ 3 <= 3
  /\ locator_count xp (xt1 ++ [Count pins]) pins = Ret 3
  /\ click_pin xp 3 [] =
       (Raise (mkExc Exception_
                 ("Cannot click pin #" ^^ str_of_int 3 ^^ ", only found "
                    ^^ str_of_int 3 ^^ " pins.")),
        xt1 ++ [Count pins; Count pins]).
Proof.
  cbv zeta. split; [reflexivity|]. split; [lia|]. split; [reflexivity|].
  apply (click_pin_out_of_range
           (Scenarios4.browser
              (Scenarios.page_showing Scenarios.everything Scenarios.nothing)
              3 (fun _ _ => None)) 3 [] 3 3); [reflexivity | lia | reflexivity].
Defined.

(** X18.  [click_pin] within range, and below it: when [index < found], which
    every negative index is, no bounds error is raised; the click goes
    through [BasePage.click] to the locator [nth(index)] under the
    description "Pin #index", failure diagnostics included. *)
Theorem click_pin_in_range (xp : XPage) (index : Z) (xt : xtrace) (found : Z) :
  let pins := ByCss Pages.PIN_ITEM in
  let xt1 := xt ++ [Old (Log INFO [T "🖱️ Clicking pin at index ";
                                   T (str_of_int index)])] in
  locator_count xp xt1 pins = Ret found ->
  index < found ->
  click_pin xp index xt =
    old (click (base xp) (nth Pages.PIN_ITEM index) ("Pin #" ^^ str_of_int index) [])
      (xt1 ++ [Count pins])
  /\ exists evs,
       snd (click_pin xp index xt)
         = xt1 ++ Count pins
             :: Old (Log INFO [T "🖱️ Clicking on '"; T ("Pin #" ^^ str_of_int index);
                               T "'"])
             :: Old (Click (nth Pages.PIN_ITEM index) []) :: evs
       /\ fst (click_pin xp index xt)
          = match locator_click (base xp) (nth Pages.PIN_ITEM index) [] with
            | None => Ret tt
            | Some e => Raise e
            end.
Proof.
  cbv zeta. intros H1 Hlt.
  assert (H : click_pin xp index xt
              = old (click (base xp) (nth Pages.PIN_ITEM index)
                       ("Pin #" ^^ str_of_int index) [])
                  ((xt ++ [Old (Log INFO [T "🖱️ Clicking pin at index ";
                                          T (str_of_int index)])])
                     ++ [Count (ByCss Pages.PIN_ITEM)])).
  { unfold click_pin, count. xrun. rewrite H1. xrun.
    replace (found <=? index) with false by (symmetry; lia). reflexivity. }
  split; [exact H|]. rewrite H.
  destruct (click_fails_loudly_run (base xp) (nth Pages.PIN_ITEM index)
              ("Pin #" ^^ str_of_int index) []
              (olds ((xt ++ [Old (Log INFO [T "🖱️ Clicking pin at index ";
                                            T (str_of_int index)])])
                       ++ [Count (ByCss Pages.PIN_ITEM)])))
    as (evs & Hclick).
  rewrite (old_run _ _ _ _ Hclick). cbn [fst snd map].
  exists (map Old evs). split; [|reflexivity].
  now repeat rewrite <- app_assoc.
Qed.

Lemma click_pin_in_range_witness :
  let xp := Scenarios4.browser
              (Scenarios.page_showing Scenarios.everything Scenarios.nothing)
              0 (fun _ _ => None) in
  let pins := ByCss Pages.PIN_ITEM in
  let xt1 := [] ++ [Old (Log INFO [T "🖱️ Clicking pin at index "; T (str_of_int (-1))])] in
  locator_count xp xt1 pins = Ret 0
  /\ -1 < 0
  /\ click_pin xp (-1) [] =
       old (click (base xp) (nth Pages.PIN_ITEM (-1)) ("Pin #" ^^ str_of_int (-1)) [])
         (xt1 ++ [Count pins])
  /\ exists evs,
       snd (click_pin xp (-1) [])
         = xt1 ++ Count pins
             :: Old (Log INFO [T "🖱️ Clicking on '"; T ("Pin #" ^^ str_of_int (-1));
                               T "'"])
             :: Old (Click (nth Pages.PIN_ITEM (-1)) []) :: evs
       /\ fst (click_pin xp (-1) [])
          = match locator_click (base xp) (nth Pages.PIN_ITEM (-1)) [] with
            | None => Ret tt
            | Some e => Raise e
            end.
Proof.
  cbv zeta. split; [reflexivity|]. split; [lia|].
  apply (click_pin_in_range
           (Scenarios4.browser
              (Scenarios.page_showing Scenarios.everything Scenarios.nothing)
              0 (fun _ _ => None)) (-1) [] 0); [reflexivity | lia].
Defined.

(** One round of scrolling, repeated. *)
Lemma scroll_loop_run (tc : Settings.TimeoutConfig) (xp : XPage) :
  mouse_wheel xp 0 5000 = None ->
  page_wait_for_timeout xp (Settings.SHORT13_TIMEOUT tc) = None ->
  forall (n : nat) (xt : xtrace),
    scroll_loop tc xp n xt =
      (Ret tt,
       xt ++ List.concat (repeat [Wheel 0 5000;
                             WaitForTimeout (Settings.SHORT13_TIMEOUT tc)] n)).
Proof.
  intros Hw Ht. induction n as [|n IH]; intros xt.
  - cbn. now rewrite app_nil_r.
  - cbn [scroll_loop repeat List.concat]. unfold wheel, wait_for_timeout.
    unfold xbind at 1. unfold xbind at 1. unfold xemit at 1. rewrite Hw.
    unfold xor_raise at 1, xret at 1. unfold xbind at 1. unfold xbind at 1.
    unfold xemit at 1. rewrite Ht. unfold xor_raise at 1, xret at 1.
    rewrite IH. f_equal. now repeat rewrite <- app_assoc.
Qed.

(** X19.  [load_more_by_scrolling] scrolls exactly [scrolls] times, by 5000
    pixels, each time followed by the short wait of the run; for
    [scrolls <= 0] it scrolls not at all. *)
Theorem load_more_scrolls_exactly (tc : Settings.TimeoutConfig) (xp : XPage)
    (scrolls : Z) (xt : xtrace) :
  mouse_wheel xp 0 5000 = None ->
  page_wait_for_timeout xp (Settings.SHORT13_TIMEOUT tc) = None ->
  load_more_by_scrolling tc xp scrolls xt =
    (Ret tt,
     xt ++ Old (Log INFO [T "📜 Scrolling "; T (str_of_int scrolls);
                          T " times to load more pins..."])
        :: List.concat (repeat [Wheel 0 5000;
                           WaitForTimeout (Settings.SHORT13_TIMEOUT tc)]
                          (Z.to_nat scrolls)))
  /\ Z.of_nat (List.length (filter is_wheel
                              (snd (load_more_by_scrolling tc xp scrolls xt))))
     = Z.of_nat (List.length (filter is_wheel xt)) + Z.max 0 scrolls.
Proof.
  intros Hw Ht.
  assert (H : load_more_by_scrolling tc xp scrolls xt =
    (Ret tt,
     xt ++ Old (Log INFO [T "📜 Scrolling "; T (str_of_int scrolls);
                          T " times to load more pins..."])
        :: List.concat (repeat [Wheel 0 5000;
                           WaitForTimeout (Settings.SHORT13_TIMEOUT tc)]
                          (Z.to_nat scrolls)))).
  { unfold load_more_by_scrolling. unfold xbind, xlogger, xemit.
    rewrite (scroll_loop_run tc xp Hw Ht). f_equal. now rewrite <- app_assoc. }
  split; [exact H|]. rewrite H. cbn [snd].
  rewrite filter_app, length_app. cbn [filter is_wheel].
  assert (Hn : forall n,
            List.length (filter is_wheel
                           (List.concat (repeat [Wheel 0 5000;
                                            WaitForTimeout (Settings.SHORT13_TIMEOUT tc)]
                                           n))) = n).
  { induction n as [|n IHn]; cbn; [reflexivity|]. now rewrite IHn. }
  rewrite Hn. lia.
Qed.

Lemma load_more_witness :
  let xp := Scenarios4.browser
              (Scenarios.page_showing Scenarios.everything Scenarios.nothing)
              0 (fun _ _ => None) in
  let tc := Scenarios.timeouts0 in
  mouse_wheel xp 0 5000 = None
  /\ page_wait_for_timeout xp (Settings.SHORT13_TIMEOUT tc) = None
  /\ load_more_by_scrolling tc xp 3 [] =
       (Ret tt,
        [] ++ Old (Log INFO [T "📜 Scrolling "; T (str_of_int 3);
                             T " times to load more pins..."])
           :: List.concat (repeat [Wheel 0 5000;
                              WaitForTimeout (Settings.SHORT13_TIMEOUT tc)]
                             (Z.to_nat 3)))
  /\ Z.of_nat (List.length (filter is_wheel (snd (load_more_by_scrolling tc xp 3 []))))
     = Z.of_nat (List.length (filter is_wheel [])) + Z.max 0 3.
Proof.
  cbv zeta. split; [reflexivity|]. split; [reflexivity|].
  apply (load_more_scrolls_exactly Scenarios.timeouts0
           (Scenarios4.browser
              (Scenarios.page_showing Scenarios.everything Scenarios.nothing)
              0 (fun _ _ => None)) 3 []); reflexivity.
Defined.

(** ** [get_image_urls] *)

Lemma split_on_nonempty (sep : ascii) (s : string) : PyStr.split_on sep s <> [].
Proof.
  induction s as [|c s IH]; cbn; [discriminate|].
  destruct (Ascii.eqb c sep); [discriminate|].
  destruct (PyStr.split_on sep s); discriminate.
Qed.

Lemma split_on_keeps_absent (x sep : ascii) (s : string) :
  PyStr.has_char x s = false ->
  Forall (fun p => PyStr.has_char x p = false) (PyStr.split_on sep s).
Proof.
  induction s as [|c s IH]; cbn; intros H.
  - repeat constructor.
  - apply orb_false_iff in H as [Hc Hs]. specialize (IH Hs).
    destruct (Ascii.eqb c sep).
    + constructor; [reflexivity | exact IH].
    + destruct (PyStr.split_on sep s) as [|p ps].
      * repeat constructor. cbn. now rewrite Hc.
      * inversion IH; subst. constructor; [|assumption].
        cbn. now rewrite Hc.
Qed.

Lemma split_on_no_sep (sep : ascii) (s : string) :
  Forall (fun p => PyStr.has_char sep p = false) (PyStr.split_on sep s).
Proof.
  induction s as [|c s IH]; cbn.
  - repeat constructor.
  - destruct (Ascii.eqb c sep) eqn:E.
    + constructor; [reflexivity | exact IH].
    + destruct (PyStr.split_on sep s) as [|p ps].
      * repeat constructor. cbn. now rewrite E.
      * inversion IH; subst. constructor; [|assumption].
        cbn. now rewrite E.
Qed.

Lemma lstrip_keeps_absent (x : ascii) (s : string) :
  PyStr.has_char x s = false -> PyStr.has_char x (lstrip s) = false.
Proof.
  induction s as [|c s IH]; cbn; [reflexivity|]. intros H.
  destruct (is_space c); [|exact H].
  apply orb_false_iff in H as [_ Hs]. now apply IH.
Qed.

Lemma rstrip_keeps_absent (x : ascii) (s : string) :
  PyStr.has_char x s = false -> PyStr.has_char x (rstrip s) = false.
Proof.
  induction s as [|c s IH]; cbn; [reflexivity|]. intros H.
  apply orb_false_iff in H as [Hc Hs]. specialize (IH Hs).
  destruct (rstrip s) as [|c' r'].
  - destruct (is_space c); cbn; [reflexivity | now rewrite Hc].
  - cbn. rewrite Hc. exact IH.
Qed.

Lemma py_index_In {A} (l : list A) (i : Z) (x : A) :
  PyStr.py_index l i = Some x -> In x l.
Proof.
  unfold PyStr.py_index.
  destruct (0 <=? i); [apply nth_error_In|].
  destruct (0 <=? Z.of_nat (List.length l) + i); [apply nth_error_In | discriminate].
Qed.

Lemma py_index_last {A} (l : list A) :
  l <> [] -> exists x, PyStr.py_index l (-1) = Some x.
Proof.
  intros Hl. unfold PyStr.py_index. cbn [Z.leb Z.compare].
  destruct l as [|a l]; [contradiction|].
  replace (0 <=? Z.of_nat (List.length (a :: l)) + -1) with true
    by (symmetry; apply Z.leb_le; cbn [List.length]; lia).
  destruct (nth_error (a :: l) (Z.to_nat (Z.of_nat (List.length (a :: l)) + -1)))
    eqn:E; [eauto|].
  apply nth_error_None in E. cbn [List.length] in E. lia.
Qed.

Lemma py_index_first {A} (l : list A) :
  l <> [] -> exists x, PyStr.py_index l 0 = Some x.
Proof. destruct l as [|a l]; [contradiction|]. intros _. exists a. reflexivity. Qed.

(** X20.  For an image with a [srcset], the URL kept is the first word of the
    last entry of the [srcset]: it holds no space and no comma, and it
    does not depend on [src], which is never used then (the
    [except IndexError] that would fall back to it cannot be reached). *)
Theorem final_url_prefers_srcset (ss : string) (src1 src2 : option string) :
  str_truthy ss = true ->
  final_url (Some ss) src1 = final_url (Some ss) src2
  /\ exists candidate u,
       PyStr.py_index (PyStr.split_on PyStr.comma ss) (-1) = Some candidate
       /\ PyStr.py_index (PyStr.split_on PyStr.space (strip candidate)) 0 = Some u
       /\ final_url (Some ss) src1 = Some u
       /\ PyStr.has_char PyStr.space u = false
       /\ PyStr.has_char PyStr.comma u = false.
Proof.
  intros Hss. unfold final_url. rewrite Hss.
  destruct (py_index_last (PyStr.split_on PyStr.comma ss) (split_on_nonempty _ _))
    as (candidate & Hc).
  rewrite Hc.
  destruct (py_index_first (PyStr.split_on PyStr.space (strip candidate))
              (split_on_nonempty _ _)) as (u & Hu).
  rewrite Hu. split; [reflexivity|]. exists candidate, u.
  split; [first [reflexivity | exact Hc]|].
  split; [first [reflexivity | exact Hu]|].
  split; [reflexivity|].
  pose proof (py_index_In _ _ _ Hc) as Hin.
  pose proof (py_index_In _ _ _ Hu) as Hin'.
  split.
  - pose proof (split_on_no_sep PyStr.space (strip candidate)) as Hf.
    rewrite Forall_forall in Hf. now apply Hf.
  - pose proof (split_on_no_sep PyStr.comma ss) as Hf.
    rewrite Forall_forall in Hf. specialize (Hf _ Hin).
    assert (Hs : PyStr.has_char PyStr.comma (strip candidate) = false).
    { unfold strip. now apply rstrip_keeps_absent, lstrip_keeps_absent. }
    pose proof (split_on_keeps_absent PyStr.comma PyStr.space _ Hs) as Hf'.
    rewrite Forall_forall in Hf'. now apply Hf'.
Qed.

Lemma final_url_witness :
  let ss := "https://i.pinimg.com/236x/a.jpg 1x, https://i.pinimg.com/originals/a.jpg 4x" in
  str_truthy ss = true
  /\ final_url (Some ss) (Some "https://i.pinimg.com/236x/a.jpg") = final_url (Some ss) None
  /\ exists candidate u,
       PyStr.py_index (PyStr.split_on PyStr.comma ss) (-1) = Some candidate
       /\ PyStr.py_index (PyStr.split_on PyStr.space (strip candidate)) 0 = Some u
       /\ final_url (Some ss) (Some "https://i.pinimg.com/236x/a.jpg") = Some u
       /\ PyStr.has_char PyStr.space u = false
       /\ PyStr.has_char PyStr.comma u = false.
Proof.
  cbv zeta. split; [reflexivity|].
  apply (final_url_prefers_srcset
           "https://i.pinimg.com/236x/a.jpg 1x, https://i.pinimg.com/originals/a.jpg 4x"
           (Some "https://i.pinimg.com/236x/a.jpg") None).
  reflexivity.
Defined.

(** The highest resolution is picked; a [srcset] that ends in a comma
    yields the empty text, and the image is dropped although it has a
    [src]. *)
Example final_url_examples :
  final_url (Some "https://i.pinimg.com/236x/a.jpg 1x, https://i.pinimg.com/originals/a.jpg 4x")
            (Some "https://i.pinimg.com/236x/a.jpg")
    = Some "https://i.pinimg.com/originals/a.jpg"
  /\ final_url (Some "https://i.pinimg.com/236x/a.jpg 1x, ")
               (Some "https://i.pinimg.com/236x/a.jpg")
     = Some EmptyString
  /\ final_url None (Some "https://i.pinimg.com/236x/a.jpg")
     = Some "https://i.pinimg.com/236x/a.jpg"
  /\ final_url None None = Some EmptyString.
Proof. repeat split. Qed.

Lemma extract_loop_grows (xp : XPage) :
  forall (n : nat) (i : Z) (urls0 : list string) (xt xt' : xtrace) (urls : list string),
    extract_loop xp n i urls0 xt = (Ret urls, xt') ->
    exists more,
      urls = urls0 ++ more
      /\ (List.length more <= n)%nat
      /\ Forall (fun u => u <> EmptyString) more.
Proof.
  induction n as [|n IH]; intros i urls0 xt xt' urls H.
  - cbn in H. injection H as <- _. exists []. rewrite app_nil_r. auto.
  - cbn [extract_loop] in H. unfold get_attribute in H.
    unfold xbind at 1 in H. unfold xbind at 1 in H. unfold xhistory at 1 in H.
    unfold xbind at 1 in H. unfold xemit at 1 in H. unfold xlift at 1 in H.
    destruct (locator_get_attribute xp xt _ "srcset") as [srcset|e];
      [|discriminate H].
    unfold xbind at 1 in H. unfold xbind at 1 in H. unfold xhistory at 1 in H.
    unfold xbind at 1 in H. unfold xemit at 1 in H. unfold xlift at 1 in H.
    destruct (locator_get_attribute xp _ _ "src") as [src|e];
      [|discriminate H].
    destruct (final_url srcset src) as [u|].
    + destruct (str_truthy u) eqn:Hu.
      * unfold xbind at 1, xlogger at 1, xemit at 1 in H.
        apply IH in H as (more & -> & Hlen & Hall).
        exists (u :: more). rewrite <- app_assoc. split; [reflexivity|].
        split; [cbn; lia|]. constructor; [|exact Hall].
        now apply str_truthy_nonempty.
      * apply IH in H as (more & -> & Hlen & Hall). exists more. auto.
    + apply IH in H as (more & -> & Hlen & Hall). exists more. auto.
Qed.

(** X21.  [get_image_urls] never returns more than [limit] URLs, nor more than
    none for a [limit] below 1, and never an empty one. *)
Theorem get_image_urls_bounded (xp : XPage) (limit : Z) (xt xt' : xtrace)
    (urls : list string) :
  get_image_urls xp limit xt = (Ret urls, xt') ->
  Z.of_nat (List.length urls) <= Z.max 0 limit
  /\ Forall (fun u => u <> EmptyString) urls.
Proof.
  unfold get_image_urls. unfold xbind at 1. unfold xlogger at 1, xemit at 1.
  unfold xbind at 1.
  destruct (wait_for_results xp limit 10000 _) as [[n0|e] xt0]; [|discriminate].
  unfold xbind at 1.
  destruct (count xp (ByCss Pages.PIN_IMAGE_LOADED) xt0) as [[loaded|e] xt1];
    [|discriminate].
  cbv zeta. unfold xbind at 1.
  destruct (count xp (ByCss Pages.PIN_IMAGE_LOADED) xt1) as [[again|e] xt2];
    [|discriminate].
  unfold xbind at 1. unfold xlogger at 1, xemit at 1. unfold xbind at 1.
  destruct (extract_loop xp (Z.to_nat (Z.min loaded limit)) 0 [] _)
    as [[urls1|e] xt3] eqn:E; [|discriminate].
  unfold xbind, xlogger, xemit, xret. intros [= <- _].
  apply extract_loop_grows in E as (more & -> & Hlen & Hall).
  cbn [List.app]. split; [lia | exact Hall].
Qed.

Lemma get_image_urls_witness :
  let xp := Scenarios4.browser
              (Scenarios.page_showing Scenarios.everything Scenarios.nothing)
              7 Scenarios4.three_sizes in
  let urls := ["https://i.pinimg.com/originals/a0.jpg";
               "https://i.pinimg.com/originals/a1.jpg"] in
  get_image_urls xp 2 [] = (Ret urls, snd (get_image_urls xp 2 []))
  /\ Z.of_nat (List.length urls) <= Z.max 0 2
  /\ Forall (fun u => u <> EmptyString) urls.
Proof.
  cbv zeta. split; [vm_compute; reflexivity|].
  apply (get_image_urls_bounded
           (Scenarios4.browser
              (Scenarios.page_showing Scenarios.everything Scenarios.nothing)
              7 Scenarios4.three_sizes)
           2 []
           (snd (get_image_urls
                   (Scenarios4.browser
                      (Scenarios.page_showing Scenarios.everything Scenarios.nothing)
                      7 Scenarios4.three_sizes) 2 []))).
  vm_compute. reflexivity.
Defined.

(** ** The status properties of an [APIResponse] *)


